(** * usdt_monitor: a shallow embedding of the USDC balance monitor

  The program polls the USDC balance of one Solana address, infers inbound
  transfers from the difference of consecutive balances, keeps a history of
  the detected amounts and reports sums over trailing windows on the console
  and to a Discord webhook.

  Amounts are Python floats, that is IEEE 754 binary64 numbers: they are
  modelled by Rocq's primitive floats.  Timestamps are [datetime] values,
  modelled by their number of microseconds. *)

From Stdlib Require Import ZArith List String Ascii Bool Lia.
From Stdlib Require Import Floats DecimalString.
From Stdlib Require Uint63.
From Stdlib Require Import Sorted.
Import ListNotations.

Set Warnings "-inexact-float".  (* decimal literals denote the nearest binary64 *)

Local Open Scope string_scope.
Local Open Scope Z_scope.

(** ** Python built-ins used by the program *)

Module Py.

(** [str.rstrip(c)] for a one-character argument. *)
Fixpoint rstrip (c : ascii) (s : string) : string :=
  match s with
  | EmptyString => EmptyString
  | String a s' =>
      match rstrip c s' with
      | EmptyString => if Ascii.eqb a c then EmptyString else String a EmptyString
      | r => String a r
      end
  end.

(** [str.split(sep)] for a one-character separator: the pieces between the
    occurrences of [sep], at least one piece. *)
Fixpoint split (sep : ascii) (s : string) : list string :=
  match s with
  | EmptyString => [EmptyString]
  | String a s' =>
      if Ascii.eqb a sep then EmptyString :: split sep s'
      else match split sep s' with
           | p :: ps => String a p :: ps
           | [] => [String a EmptyString]
           end
  end.

(** [enumerate(l)] *)
Definition enumerate {A : Type} (l : list A) : list (nat * A) :=
  combine (seq 0 (List.length l)) l.

(** [str(n)] for a non-negative integer. *)
Definition str_of_Z (n : Z) : string :=
  NilZero.string_of_uint (N.to_uint (Z.to_N n)).

Definition digit_char (d : Z) : ascii := ascii_of_nat (48 + Z.to_nat d).

(** The [k] low decimal digits of [z], most significant first. *)
Fixpoint fixed_digits (k : nat) (z : Z) : string :=
  match k with
  | O => EmptyString
  | S k' => fixed_digits k' (z / 10) ++ String (digit_char (z mod 10)) EmptyString
  end.

(** The integer nearest to [num / den], ties to the even one. *)
Definition round_half_even (num den : Z) : Z :=
  let q := num / den in
  let r := num mod den in
  match 2 * r ?= den with
  | Lt => q
  | Gt => q + 1
  | Eq => if Z.even q then q else q + 1
  end.

(** [m * 2^e * 10^10] rounded to an integer: the digits that the format
    specification [.10f] prints for the magnitude [m * 2^e]. *)
Definition scaled10 (m : positive) (e : Z) : Z :=
  match e with
  | Zneg p => round_half_even (Zpos m * 10 ^ 10) (2 ^ Zpos p)
  | _ => Zpos m * 2 ^ e * 10 ^ 10
  end.

Definition sign_str (s : bool) : string := if s then "-" else "".

(** [f"{value:.10f}"]: the exact binary value rounded correctly (ties to
    even) to ten fractional digits. *)
Definition format_10f (value : float) : string :=
  match Prim2SF value with
  | S754_nan => "nan"
  | S754_infinity s => sign_str s ++ "inf"
  | S754_zero s => sign_str s ++ "0." ++ fixed_digits 10 0
  | S754_finite s m e =>
      let n := scaled10 m e in
      sign_str s ++ str_of_Z (n / 10 ^ 10) ++ "." ++ fixed_digits 10 (n mod 10 ^ 10)
  end.

(** [sum(l)] over floats: the items are added from left to right, starting
    from zero. *)
Definition sum (l : list float) : float :=
  fold_left PrimFloat.add l 0%float.

(** [s * n] *)
Fixpoint repeat (s : string) (n : nat) : string :=
  match n with
  | O => EmptyString
  | S n' => s ++ repeat s n'
  end.

(** [l[i:j]] for [0 <= i <= j] *)
Definition slice {A : Type} (i j : nat) (l : list A) : list A :=
  firstn (j - i) (skipn i l).

(** [int.from_bytes(bs, byteorder='little')] *)
Definition int_from_bytes_little (bs : list Byte.byte) : Z :=
  fold_right (fun b acc => Z.of_N (Byte.to_N b) + 256 * acc) 0 bs.

Definition Z2SF (z : Z) : spec_float :=
  match z with
  | Z0 => S754_zero false
  | Zpos p => S754_finite false p 0
  | Zneg p => S754_finite true p 0
  end.

(** [a / b] on integers, [b] not zero: the float nearest to the quotient. *)
Definition int_true_div (a b : Z) : float :=
  SF2Prim (SFdiv prec emax (Z2SF a) (Z2SF b)).

(** [x or 0.0] for [x] a float or [None]: a float is false when it is zero. *)
Definition or_zero (x : option float) : float :=
  match x with
  | Some v => if (v =? 0)%float then 0%float else v
  | None => 0%float
  end.

End Py.

(** ** NumberFormatter *)

Definition group_step (formatted_integer : string) (p : nat * ascii) : string :=
let '(i, digit) := p in
let formatted_integer :=
  if (0 <? i)%nat && (i mod 3 =? 0)%nat
  then " " ++ formatted_integer else formatted_integer in
String digit formatted_integer.

Definition format_number (value : float) : string :=
if (value =? 0)%float then "0"
else
  let parts := Py.split "." (Py.rstrip "." (Py.rstrip "0" (Py.format_10f value))) in
  let integer_part := nth 0 parts "" in
  let decimal_part :=
    match parts with
    | _ :: EmptyString :: _ => None
    | _ :: p1 :: _ => Some p1
    | _ => None
    end in
  let formatted_integer :=
    fold_left group_step
      (Py.enumerate (rev (list_ascii_of_string integer_part))) "" in
  match decimal_part with
  | Some d => formatted_integer ++ "." ++ d
  | None => formatted_integer
  end.


(** The grouping of the integer part as the specification words it: a space
  after every three digits counted from the right.  [thousands_rev] works on
  the digits from the least significant one. *)
Fixpoint thousands_rev (l : list ascii) : list ascii :=
match l with
| a :: b :: c :: rest =>
    a :: b :: c :: match rest with
                   | [] => []
                   | _ => " "%char :: thousands_rev rest
                   end
| _ => l
end.

Definition thousands (s : string) : string :=
string_of_list_ascii (rev (thousands_rev (rev (list_ascii_of_string s)))).

(** The rendering of a non-negative amount given by its integer number [n]
  of units of [10^-10]: integer part grouped, fraction without trailing
  zeros and never grouped, no decimal point when the fraction is empty. *)
Definition render (n : Z) : string :=
let fraction := Py.rstrip "0" (Py.fixed_digits 10 (n mod 10 ^ 10)) in
thousands (Py.str_of_Z (n / 10 ^ 10)) ++
match fraction with
| EmptyString => ""
| _ => "." ++ fraction
end.

(** The number of units of [10^-10] in the magnitude of [value], rounded to
  the nearest integer (ties to even). *)
Definition units10 (value : float) : Z :=
match Prim2SF value with
| S754_finite _ m e => Py.scaled10 m e
| _ => 0
end.

Definition format_number_spec (value : float) : string :=
if (value =? 0)%float then "0" else render (units10 value).


(** ** Values exchanged with the outside world *)

(** A [datetime] is modelled by its number of microseconds since
    0001-01-01 00:00:00; a difference of two of them is a [timedelta], a
    number of microseconds.  The range limits of Python's [datetime] (years 1
    to 9999) are not modelled. *)
Definition datetime := Z.

(** [timedelta(seconds=s)] *)
Definition timedelta_seconds (s : Z) : Z := s * 1000000.

(** [td.total_seconds() >= s] for an integer [s].  [total_seconds] is the
    correctly rounded quotient of the microseconds by [10^6]; for the
    thresholds of the program (900, 3600 and 86400, all representable) the
    comparison of the quotient decides as the comparison of the microseconds
    does. *)
Definition total_seconds_ge (td : Z) (s : Z) : bool := s * 1000000 <=? td.

(** Calendar fields of a day number (days since 0001-01-01), for
    [strftime]. *)
Definition civil_of_days (days : Z) : Z * Z * Z :=
  let z := days + 306 in
  let era := z / 146097 in
  let doe := z - era * 146097 in
  let yoe := (doe - doe / 1460 + doe / 36524 - doe / 146096) / 365 in
  let doy := doe - (365 * yoe + yoe / 4 - yoe / 100) in
  let mp := (5 * doy + 2) / 153 in
  let d := doy - (153 * mp + 2) / 5 + 1 in
  let m := if mp <? 10 then mp + 3 else mp - 9 in
  let y := yoe + era * 400 + (if m <=? 2 then 1 else 0) in
  (y, m, d).

(** [t.strftime('%Y-%m-%d %H:%M:%S')] *)
Definition strftime (t : datetime) : string :=
  let secs := t / 1000000 in
  let '(y, m, d) := civil_of_days (secs / 86400) in
  let sod := secs mod 86400 in
  Py.fixed_digits 4 y ++ "-" ++ Py.fixed_digits 2 m ++ "-" ++ Py.fixed_digits 2 d
  ++ " " ++ Py.fixed_digits 2 (sod / 3600) ++ ":"
  ++ Py.fixed_digits 2 (sod mod 3600 / 60) ++ ":" ++ Py.fixed_digits 2 (sod mod 60).

(** Instances of Python's [Exception], with the text that [str(e)] gives. *)
Inductive exn : Type :=
| Exception (message : string).

Definition str_exn (e : exn) : string :=
  match e with Exception message => message end.

(** What a call into a library or over the network does. *)
Inductive outcome (A : Type) : Type :=
| Returns (a : A)
| Raises (e : exn).
Arguments Returns {A} a.
Arguments Raises {A} e.

(** *** The balance provider (solana-py) *)

Definition pubkey := string.

(** An entry of [get_token_accounts_by_owner(...).value]. *)
Record keyed_account : Type := { ka_pubkey : pubkey }.

(** [get_account_info(...).value] when it is not [None]. *)
Record account : Type := { acc_data : list Byte.byte }.

(** [get_token_account_balance(...).value] *)
Record ui_token_amount : Type := { ui_amount : option float }.

(** *** The webhook (requests) *)

Record embed_field : Type :=
  { f_name : string; f_value : string; f_inline : bool }.

Record embed : Type :=
  { e_title : string; e_color : Z; e_fields : list embed_field;
    e_footer_text : string }.

(** The JSON body: the key ["embeds"] is present only when [p_embeds] is. *)
Record payload : Type :=
  { p_content : string; p_embeds : option (list embed) }.

Record response : Type := { status_code : Z; reason : string }.

(** *** The environment

    Every interaction with the outside world advances a counter, [tick]; the
    environment tells what the interaction number [n] answers. *)
Record env : Type :=
  { clock : nat -> datetime;
    new_client : nat -> string -> outcome unit;
    pubkey_from_string : string -> outcome pubkey;
    token_accounts_by_owner :
      nat -> pubkey -> pubkey -> outcome (list keyed_account);
    account_info : nat -> pubkey -> outcome (option account);
    token_account_balance : nat -> pubkey -> outcome (option ui_token_amount);
    requests_post : nat -> string -> payload -> Z -> outcome response }.

(** What the program does to the outside world. *)
Inductive event : Type :=
| Print (line : string)
| Sleep (seconds : Z)
| HttpPost (url : string) (body : payload) (timeout : Z).

(** ** The state of the program

    The three globals of the module, the local [initial_balance] of
    [monitor_usdc_transactions] (the baseline), the events so far (oldest
    first) and the interaction counter. *)
Record world : Type :=
  { total_usdc_received : float;
    transaction_history : list (datetime * float);
    monitoring_start_time : option datetime;
    initial_balance : float;
    trace : list event;
    tick : nat }.

Definition set_total_usdc_received (x : float) (w : world) : world :=
  {| total_usdc_received := x;
     transaction_history := transaction_history w;
     monitoring_start_time := monitoring_start_time w;
     initial_balance := initial_balance w;
     trace := trace w; tick := tick w |}.

Definition set_transaction_history (h : list (datetime * float)) (w : world)
  : world :=
  {| total_usdc_received := total_usdc_received w;
     transaction_history := h;
     monitoring_start_time := monitoring_start_time w;
     initial_balance := initial_balance w;
     trace := trace w; tick := tick w |}.

Definition set_monitoring_start_time (t : option datetime) (w : world) : world :=
  {| total_usdc_received := total_usdc_received w;
     transaction_history := transaction_history w;
     monitoring_start_time := t;
     initial_balance := initial_balance w;
     trace := trace w; tick := tick w |}.

Definition set_initial_balance (x : float) (w : world) : world :=
  {| total_usdc_received := total_usdc_received w;
     transaction_history := transaction_history w;
     monitoring_start_time := monitoring_start_time w;
     initial_balance := x;
     trace := trace w; tick := tick w |}.

Definition emit (ev : event) (w : world) : world :=
  {| total_usdc_received := total_usdc_received w;
     transaction_history := transaction_history w;
     monitoring_start_time := monitoring_start_time w;
     initial_balance := initial_balance w;
     trace := (trace w ++ [ev])%list; tick := tick w |}.

Definition advance (w : world) : world :=
  {| total_usdc_received := total_usdc_received w;
     transaction_history := transaction_history w;
     monitoring_start_time := monitoring_start_time w;
     initial_balance := initial_balance w;
     trace := trace w; tick := S (tick w) |}.

(** The state when the module has just been loaded. *)
Definition initial_world : world :=
  {| total_usdc_received := 0%float;
     transaction_history := [];
     monitoring_start_time := None;
     initial_balance := 0%float;
     trace := []; tick := O |}.

(** ** The monad of the program: state, environment and exceptions

    A computation returns a value or raises; the state it has reached is kept
    in both cases, as Python keeps the assignments made before a [raise]. *)
Inductive result (A : Type) : Type :=
| Ok (a : A)
| Raise (e : exn).
Arguments Ok {A} a.
Arguments Raise {A} e.

Definition M (A : Type) : Type := env -> world -> world * result A.

Definition ret {A : Type} (a : A) : M A := fun _ w => (w, Ok a).

Definition bind {A B : Type} (c : M A) (k : A -> M B) : M B :=
  fun E w =>
    match c E w with
    | (w', Ok a) => k a E w'
    | (w', Raise e) => (w', Raise e)
    end.

Definition raise {A : Type} (e : exn) : M A := fun _ w => (w, Raise e).

(** [try: c  except Exception as e: handler e] *)
Definition try_except {A : Type} (c : M A) (handler : exn -> M A) : M A :=
  fun E w =>
    match c E w with
    | (w', Ok a) => (w', Ok a)
    | (w', Raise e) => handler e E w'
    end.

Declare Scope monad_scope.
Delimit Scope monad_scope with monad.
Notation "x <- c ;; k" := (bind c (fun x => k))
  (at level 61, c at next level, right associativity) : monad_scope.
Notation "c ;; k" := (bind c (fun _ => k))
  (at level 61, right associativity) : monad_scope.
Local Open Scope monad_scope.

Definition gets {A : Type} (f : world -> A) : M A := fun _ w => (w, Ok (f w)).

Definition modify (f : world -> world) : M unit := fun _ w => (f w, Ok tt).

(** An interaction with the outside world. *)
Definition interact {A : Type} (f : env -> nat -> outcome A) : M A :=
  fun E w =>
    (advance w,
     match f E (tick w) with
     | Returns a => Ok a
     | Raises e => Raise e
     end).

(** [datetime.now()] *)
Definition datetime_now : M datetime :=
  interact (fun E n => Returns (clock E n)).

(** [print(line)] *)
Definition print (line : string) : M unit := modify (emit (Print line)).

(** [time.sleep(seconds)] *)
Definition time_sleep (seconds : Z) : M unit := modify (emit (Sleep seconds)).

(** A call into a library that does not reach the outside world. *)
Definition library_call {A : Type} (f : env -> outcome A) : M A :=
  fun E w =>
    (w, match f E with
        | Returns a => Ok a
        | Raises e => Raise e
        end).

(** ** The program *)

(** *** Configuration *)

Definition SOLANA_RPC_URL : string := "https://api.mainnet-beta.solana.com".
Definition MONITORED_ADDRESS : string :=
  "9ApaAe39Z8GEXfqm7F7HL545N4J4tN7RhF8FhS88pRNp".
Definition USDC_MINT_ADDRESS : string :=
  "EPjFWdd5AufqSSqeM2qN1xzybapC8G4wEGGkZwyTDt1v".
Definition CHECK_INTERVAL : Z := 300.
Definition DISCORD_WEBHOOK_URL : string :=
  "https://discord.com/api/webhooks/1349782554907119706/O0TPa8j-EvKpZOz1Uos0SMGQ4hOJKFpKyq0O8g-S1KZuzeEP06FrPPhvz_iAkXXvU14e".

(** *** BalanceReader *)

(** The fallback of [get_usdc_balance]: the balance read in the raw data of
    the token account, [None] when the data is missing or too short. *)
Definition balance_from_account_data (info : option account) : option float :=
  match info with
  | Some acc =>
      let data := acc_data acc in
      match data with
      | [] => None
      | _ =>
          if (72 <=? List.length data)%nat then
            let balance_bytes := Py.slice 64 72 data in
            let balance := Py.int_from_bytes_little balance_bytes in
            Some (Py.int_true_div balance 1000000)
          else None
      end
  | None => None
  end.

(** The inner [try] of [get_usdc_balance]: [Some] balance when the function
    returns from inside it or from its handler, [None] when control reaches
    the final [return 0.0]. *)
Definition read_token_balance (account_pubkey : pubkey) (info : option account)
  : M (option float) :=
  try_except
    (balance_response <-
       interact (fun E n => token_account_balance E n account_pubkey) ;;
     match balance_response with
     | Some value => ret (Some (Py.or_zero (ui_amount value)))
     | None => ret None
     end)
    (fun _ => ret (balance_from_account_data info)).

(** The body of the outer [try] of [get_usdc_balance]. *)
Definition balance_query (address : string) : M float :=
  _ <- interact (fun E n => new_client E n SOLANA_RPC_URL) ;;
  owner_pubkey <- library_call (fun E => pubkey_from_string E address) ;;
  mint_pubkey <- library_call (fun E => pubkey_from_string E USDC_MINT_ADDRESS) ;;
  token_accounts <-
    interact (fun E n => token_accounts_by_owner E n owner_pubkey mint_pubkey) ;;
  match token_accounts with
  | token_account :: _ =>
      let account_pubkey := ka_pubkey token_account in
      info <- interact (fun E n => account_info E n account_pubkey) ;;
      returned <- read_token_balance account_pubkey info ;;
      match returned with
      | Some balance => ret balance
      | None => ret 0%float
      end
  | [] => ret 0%float
  end.

Definition get_usdc_balance (address : string) : M float :=
  try_except
    (balance_query address)
    (fun e =>
       print ("Ошибка при получении баланса: " ++ str_exn e) ;;
       ret 0%float).

(** *** StatisticsCalculator *)

(** The generator [(amount for timestamp, amount in transaction_history
    if timestamp >= cutoff_time)]. *)
Fixpoint amounts_since (cutoff_time : datetime)
    (history : list (datetime * float)) : list float :=
  match history with
  | [] => []
  | (timestamp, amount) :: rest =>
      if cutoff_time <=? timestamp
      then amount :: amounts_since cutoff_time rest
      else amounts_since cutoff_time rest
  end.

Definition get_received_in_period (seconds : Z) : M float :=
  history <- gets transaction_history ;;
  match history with
  | [] => ret 0%float
  | _ =>
      now <- datetime_now ;;
      let cutoff_time := now - timedelta_seconds seconds in
      ret (Py.sum (amounts_since cutoff_time history))
  end.

(** The dictionary that [get_statistics_data] returns: a value is [None] for
    a window that the session has not covered yet. *)
Record statistics : Type :=
  { last_5_min : float;
    last_15_min : option float;
    last_hour : option float;
    last_24h : option float }.

Definition elapsed_since (start : option datetime) (now : datetime) : Z :=
  match start with
  | Some t => now - t
  | None => 0
  end.

Definition received_if_elapsed (elapsed : Z) (seconds : Z) : M (option float) :=
  if total_seconds_ge elapsed seconds
  then (x <- get_received_in_period seconds ;; ret (Some x))
  else ret None.

Definition get_statistics_data : M statistics :=
  now <- datetime_now ;;
  start <- gets monitoring_start_time ;;
  let elapsed := elapsed_since start now in
  s5 <- get_received_in_period 300 ;;
  s15 <- received_if_elapsed elapsed 900 ;;
  s60 <- received_if_elapsed elapsed 3600 ;;
  s24 <- received_if_elapsed elapsed 86400 ;;
  ret {| last_5_min := s5; last_15_min := s15; last_hour := s60; last_24h := s24 |}.

(** *** NotificationSink *)

(** [response.raise_for_status()] of requests: an [HTTPError] for a status
    from 400 to 599, nothing otherwise. *)
Definition raise_for_status (url : string) (r : response) : M unit :=
  let status := status_code r in
  if (400 <=? status) && (status <? 500) then
    raise (Exception (Py.str_of_Z status ++ " Client Error: " ++ reason r
                      ++ " for url: " ++ url))
  else if (500 <=? status) && (status <? 600) then
    raise (Exception (Py.str_of_Z status ++ " Server Error: " ++ reason r
                      ++ " for url: " ++ url))
  else ret tt.

(** [requests.post(url, json=body, timeout=timeout)] *)
Definition post (url : string) (body : payload) (timeout : Z) : M response :=
  modify (emit (HttpPost url body timeout)) ;;
  interact (fun E n => requests_post E n url body timeout).

Definition send_discord_message (content : string) (embed_arg : option embed)
  : M bool :=
  try_except
    (let body :=
       {| p_content := content;
          p_embeds := match embed_arg with
                      | Some e => Some [e]
                      | None => None
                      end |} in
     r <- post DISCORD_WEBHOOK_URL body 10 ;;
     raise_for_status DISCORD_WEBHOOK_URL r ;;
     ret true)
    (fun e =>
       print ("Ошибка при отправке в Discord: " ++ str_exn e) ;;
       ret false).

Definition usdc_field (name : string) (amount : float) : embed_field :=
  {| f_name := name; f_value := format_number amount ++ " USDC";
     f_inline := false |}.

Definition optional_field (name : string) (amount : option float)
  : list embed_field :=
  match amount with
  | Some x => [usdc_field name x]
  | None => []
  end.

Definition address_footer : string :=
  "Адрес: " ++ substring 0 8 MONITORED_ADDRESS ++ "..."
  ++ substring (String.length MONITORED_ADDRESS - 8) 8 MONITORED_ADDRESS.

Definition send_statistics_to_discord (current_balance : float)
    (current_time_str : string) : M unit :=
  stats <- get_statistics_data ;;
  let fields :=
    ([usdc_field "💰 Текущий баланс" current_balance;
      usdc_field "⏱️ За последние 5 минут" (last_5_min stats)]
     ++ optional_field "⏱️ За последние 15 минут" (last_15_min stats)
     ++ optional_field "⏱️ За последний час" (last_hour stats)
     ++ optional_field "⏱️ За последние сутки" (last_24h stats))%list in
  let e :=
    {| e_title := "📊 Статистика сбора USDC";
       e_color := 3447003;
       e_fields := fields;
       e_footer_text := address_footer |} in
  _ <- send_discord_message "" (Some e) ;;
  ret tt.

(** *** Console statistics *)

Definition print_optional (label : string) (amount : option float) : M unit :=
  match amount with
  | Some x => print (label ++ format_number x ++ " USDC")
  | None => ret tt
  end.

Definition print_statistics : M unit :=
  stats <- get_statistics_data ;;
  print (Py.repeat "─" 60) ;;
  print "📊 СТАТИСТИКА ПО ПЕРИОДАМ:" ;;
  print ("   За последние 5 минут:    " ++ format_number (last_5_min stats) ++ " USDC") ;;
  print_optional "   За последние 15 минут:   " (last_15_min stats) ;;
  print_optional "   За последний час:         " (last_hour stats) ;;
  print_optional "   За последние сутки:       " (last_24h stats) ;;
  total <- gets total_usdc_received ;;
  print ("   С начала мониторинга:     " ++ format_number total ++ " USDC") ;;
  print (Py.repeat "─" 60).

(** *** MonitorLoop

    The loop is written over the three functions it calls, so that its
    handling of exceptions can be stated whatever they do; the program is its
    instance at [get_usdc_balance], [print_statistics] and
    [send_statistics_to_discord]. *)
Section MonitorLoop.

Variable balance_reader : string -> M float.
Variable statistics_printer : M unit.
Variable statistics_sender : float -> string -> M unit.

(** The body of the [try] of one iteration. *)
Definition iteration_body : M unit :=
  current_time <- datetime_now ;;
  let current_time_str := strftime current_time in
  current_balance <- balance_reader MONITORED_ADDRESS ;;
  baseline <- gets initial_balance ;;
  (if (baseline <? current_balance)%float then
     let received := (current_balance - baseline)%float in
     total <- gets total_usdc_received ;;
     modify (set_total_usdc_received (total + received)%float) ;;
     history <- gets transaction_history ;;
     modify (set_transaction_history (history ++ [(current_time, received)])%list) ;;
     print ("[" ++ current_time_str ++ "] ⚠️  ОБНАРУЖЕН НОВЫЙ ВХОДЯЩИЙ ПЕРЕВОД!") ;;
     print ("    Получено: " ++ format_number received ++ " USDC") ;;
     print ("    Текущий баланс: " ++ format_number current_balance ++ " USDC") ;;
     print "" ;;
     modify (set_initial_balance current_balance)
   else if (current_balance <? baseline)%float then
     modify (set_initial_balance current_balance)
   else ret tt) ;;
  print ("[" ++ current_time_str ++ "] Текущий баланс: "
         ++ format_number current_balance ++ " USDC") ;;
  statistics_printer ;;
  statistics_sender current_balance current_time_str ;;
  print "Ожидание следующей проверки..." ;;
  print "".

(** The [except Exception as e] of the loop. *)
Definition iteration_handler (e : exn) : M unit :=
  t <- datetime_now ;;
  print ("[" ++ strftime t ++ "] Ошибка: " ++ str_exn e) ;;
  print "".

(** One turn of [while True]. *)
Definition iteration : M unit :=
  try_except iteration_body iteration_handler ;;
  time_sleep CHECK_INTERVAL.

(** The first [n] turns of the loop. *)
Fixpoint iterations (n : nat) : M unit :=
  match n with
  | O => ret tt
  | S n' => iteration ;; iterations n'
  end.

(** The function up to the end of the [n]-th turn of its loop. *)
Definition monitor (n : nat) : M unit :=
  print (Py.repeat "=" 60) ;;
  print "Монитор USDC транзакций запущен" ;;
  print ("Адрес: " ++ MONITORED_ADDRESS) ;;
  print ("Интервал проверки: " ++ Py.str_of_Z CHECK_INTERVAL ++ " секунд (5 минут)") ;;
  print (Py.repeat "=" 60) ;;
  print "" ;;
  balance <- balance_reader MONITORED_ADDRESS ;;
  modify (set_initial_balance balance) ;;
  start <- datetime_now ;;
  modify (set_monitoring_start_time (Some start)) ;;
  print ("[" ++ strftime start ++ "] Начальный баланс USDC: "
         ++ format_number balance ++ " USDC") ;;
  print "" ;;
  iterations n.

End MonitorLoop.

Definition monitor_iteration : M unit :=
  iteration get_usdc_balance print_statistics send_statistics_to_discord.

Definition monitor_usdc_transactions (n : nat) : M unit :=
  monitor get_usdc_balance print_statistics send_statistics_to_discord n.

(** ** Auxiliary definitions for the proofs *)

(** [c] does not occur in [s]. *)
Fixpoint nochar (c : ascii) (s : string) : Prop :=
  match s with
  | EmptyString => True
  | String a s' => a <> c /\ nochar c s'
  end.


(** The characters in the order in which the loop of [format_number] puts
    them in front of [formatted_integer], from index [i] on. *)
Fixpoint emitted (i : nat) (l : list ascii) : list ascii :=
  match l with
  | [] => []
  | d :: l' =>
      ((if (0 <? i)%nat && (i mod 3 =? 0)%nat then [" "%char] else [])
         ++ d :: emitted (S i) l')%list
  end.

Fixpoint rev_onto (l : list ascii) (acc : string) : string :=
  match l with
  | [] => acc
  | a :: l' => rev_onto l' (String a acc)
  end.


(** The variables of the program in two states are the same. *)
Definition same_store (w w' : world) : Prop :=
  total_usdc_received w' = total_usdc_received w /\
  transaction_history w' = transaction_history w /\
  monitoring_start_time w' = monitoring_start_time w /\
  initial_balance w' = initial_balance w.

(** [c] leaves the variables of the program as they are, whether it returns
    or raises. *)
Definition frames {A : Type} (c : M A) : Prop :=
  forall E w, same_store w (fst (c E w)).

(** [c] never raises. *)
Definition returns {A : Type} (c : M A) : Prop :=
  forall E w, exists a, snd (c E w) = Ok a.

(** The running total is the sum of the amounts of the history. *)
Definition total_matches_history (w : world) : Prop :=
  total_usdc_received w = Py.sum (map snd (transaction_history w)).

(** What one turn of the loop does to the variables of the program when the
    balance read at time [now] is [balance]. *)
Definition on_balance (now : datetime) (balance : float) (w : world) : world :=
  let baseline := initial_balance w in
  if (baseline <? balance)%float then
    let received := (balance - baseline)%float in
    set_initial_balance balance
      (set_transaction_history (transaction_history w ++ [(now, received)])
         (set_total_usdc_received (total_usdc_received w + received)%float w))
  else if (balance <? baseline)%float then set_initial_balance balance w
  else w.

(** An environment for examples: the clock advances by one second at every
    interaction, the provider reports the balance [balances n] at interaction
    [n], the webhook answers 204. *)
Definition poll_env (balances : nat -> float) : env :=
  {| clock := fun n => 63898029296000000 + Z.of_nat n * 1000000;
     new_client := fun _ _ => Returns tt;
     pubkey_from_string := fun s => Returns s;
     token_accounts_by_owner :=
       fun _ _ _ => Returns [ {| ka_pubkey := "token-account" |} ];
     account_info := fun _ _ => Returns None;
     token_account_balance :=
       fun n _ => Returns (Some {| ui_amount := Some (balances n) |});
     requests_post :=
       fun _ _ _ _ => Returns {| status_code := 204; reason := "No Content" |} |}.

(** A state of the loop with the given baseline and nothing received yet. *)
Definition world_with_baseline (baseline : float) : world :=
  set_initial_balance baseline
    (set_monitoring_start_time (Some 63898029000000000) initial_world).

(** The records of the history that a window of [window_seconds] seconds
    ending at [now] covers, and the sum of their amounts: [sum_in_window] of
    the specification. *)
Definition window_records (now : datetime) (window_seconds : Z)
    (history : list (datetime * float)) : list (datetime * float) :=
  filter (fun r => now - window_seconds * 1000000 <=? fst r) history.

Definition sum_in_window (now : datetime) (window_seconds : Z)
    (history : list (datetime * float)) : float :=
  Py.sum (map snd (window_records now window_seconds history)).





(** The client is built and both keys are parsed. *)
Definition provider_ready (E : env) (n : nat) (address : string)
    (owner mint : pubkey) : Prop :=
  (exists u, new_client E n SOLANA_RPC_URL = Returns u) /\
  pubkey_from_string E address = Returns owner /\
  pubkey_from_string E USDC_MINT_ADDRESS = Returns mint.







(** ** Auxiliary definitions for the properties of the events *)

Definition is_print (ev : event) : bool :=
  match ev with Print _ => true | _ => false end.




(** [c] only observes and prints, whether it returns or raises: the
    interaction counter does not go back and the events it adds are console
    lines. *)
Definition observes {A : Type} (c : M A) : Prop :=
  forall E w,
    (tick w <= tick (fst (c E w)))%nat /\
    exists l,
      trace (fst (c E w)) = (trace w ++ l)%list /\ forallb is_print l = true.

(** The body that [send_discord_message] posts. *)
Definition discord_payload (content : string) (embed_arg : option embed)
  : payload :=
  {| p_content := content;
     p_embeds := match embed_arg with
                 | Some e => Some [e]
                 | None => None
                 end |}.

(** The number of the windows of 15 minutes, 1 hour and 24 hours that a
    session of [elapsed] microseconds has covered. *)
Definition windows_elapsed (elapsed : Z) : nat :=
  List.length (filter (fun s => s * 1000000 <=? elapsed) [900; 3600; 86400]).

(** [n.to_bytes(k, byteorder='little')] for [0 <= n < 256^k]; the byte [x00]
    stands for a digit out of range, which does not occur then. *)
Fixpoint int_to_bytes_little (k : nat) (n : Z) : list Byte.byte :=
  match k with
  | O => []
  | S k' =>
      match Byte.of_N (Z.to_N (n mod 256)) with
      | Some b => b
      | None => Byte.x00
      end :: int_to_bytes_little k' (n / 256)
  end.

(** The timestamps of a history never decrease. *)
Definition chronological (history : list (datetime * float)) : Prop :=
  StronglySorted (fun a b => fst a <= fst b) history.

(** Every record of the history carries a reading of the clock made before
    the current interaction. *)
Definition stamped (E : env) (w : world) : Prop :=
  Forall (fun r => exists k, (k < tick w)%nat /\ fst r = clock E k)
    (transaction_history w).

(** The clock of the environment never goes back. *)
Definition monotone_clock (E : env) : Prop :=
  forall m n, (m <= n)%nat -> clock E m <= clock E n.


(** A float of the specification that is a number and is not negative. *)
Definition not_negative (x : spec_float) : Prop :=
  match x with
  | S754_nan => False
  | S754_zero _ => True
  | S754_infinity s | S754_finite s _ _ => s = false
  end.

(** An environment in which the balance query fails and the raw data of the
    token account (165 bytes) holds the amount [raw] at offset 64. *)
Definition raw_data_env (raw : Z) : env :=
  {| clock := fun n => 63898029296000000 + Z.of_nat n * 1000000;
     new_client := fun _ _ => Returns tt;
     pubkey_from_string := fun s => Returns s;
     token_accounts_by_owner :=
       fun _ _ _ => Returns [ {| ka_pubkey := "token-account" |} ];
     account_info :=
       fun _ _ =>
         Returns (Some {| acc_data :=
                            (List.repeat Byte.x00 64
                             ++ int_to_bytes_little 8 raw
                             ++ List.repeat Byte.x00 93)%list |});
     token_account_balance := fun _ _ => Raises (Exception "bad response");
     requests_post :=
       fun _ _ _ _ => Returns {| status_code := 204; reason := "No Content" |} |}.

Definition not_space (c : ascii) : bool := negb (Ascii.eqb c " ").

(** [s] without its spaces. *)
Definition remove_spaces (s : string) : string :=
  string_of_list_ascii (filter not_space (list_ascii_of_string s)).

(** [s] holds no space. *)
Definition spaceless (s : string) : Prop :=
  forallb not_space (list_ascii_of_string s) = true.
(** ** Lemmas on strings *)


Lemma append_nil_r (s : string) : s ++ "" = s.
Proof. induction s; simpl; congruence. Qed.

Lemma append_assoc (s t u : string) : (s ++ t) ++ u = s ++ (t ++ u).
Proof. induction s; simpl; congruence. Qed.

Lemma nochar_app c s t : nochar c s -> nochar c t -> nochar c (s ++ t).
Proof. induction s; simpl; tauto. Qed.

Lemma rstrip_app c s t :
  Py.rstrip c (s ++ t) =
  match Py.rstrip c t with
  | EmptyString => Py.rstrip c s
  | r => s ++ r
  end.
Proof.
  induction s as [|a s IH]; simpl.
  - destruct (Py.rstrip c t); reflexivity.
  - rewrite IH. destruct (Py.rstrip c t) as [|x r]; [reflexivity|].
    destruct s; reflexivity.
Qed.

Lemma rstrip_nochar c s : nochar c s -> Py.rstrip c s = s.
Proof.
  induction s as [|a s IH]; simpl; [reflexivity|].
  intros [Ha Hs]. rewrite (IH Hs).
  destruct s; [|reflexivity].
  apply Ascii.eqb_neq in Ha. rewrite Ha. reflexivity.
Qed.

Lemma nochar_rstrip c d s : nochar c s -> nochar c (Py.rstrip d s).
Proof.
  induction s as [|a s IH]; simpl; [tauto|].
  intros [Ha Hs]. specialize (IH Hs).
  destruct (Py.rstrip d s); [|simpl in *; tauto].
  destruct (Ascii.eqb a d); simpl; tauto.
Qed.

Lemma split_nochar c s : nochar c s -> Py.split c s = [s].
Proof.
  induction s as [|a s IH]; simpl; [reflexivity|].
  intros [Ha Hs]. apply Ascii.eqb_neq in Ha. rewrite Ha, (IH Hs). reflexivity.
Qed.

Lemma split_app c s t :
  nochar c s -> Py.split c (s ++ String c t) = s :: Py.split c t.
Proof.
  induction s as [|a s IH]; simpl.
  - intros _. rewrite Ascii.eqb_refl. reflexivity.
  - intros [Ha Hs]. apply Ascii.eqb_neq in Ha. rewrite Ha, (IH Hs). reflexivity.
Qed.

Lemma string_of_list_ascii_app l1 l2 :
  string_of_list_ascii (l1 ++ l2) =
  string_of_list_ascii l1 ++ string_of_list_ascii l2.
Proof. induction l1; simpl; congruence. Qed.


(** ** Lemmas on decimal digits *)

Lemma digit_char_nodot d : 0 <= d < 10 -> Py.digit_char d <> "."%char.
Proof.
  intros H. unfold Py.digit_char.
  assert (Hn : (Z.to_nat d < 10)%nat) by lia.
  revert Hn. generalize (Z.to_nat d). intros n Hn.
  do 10 (destruct n as [|n]; [intro E; vm_compute in E; discriminate|]). lia.
Qed.

Lemma fixed_digits_nodot k : forall z, nochar "." (Py.fixed_digits k z).
Proof.
  induction k as [|k IH]; intros z; simpl; [exact I|].
  apply nochar_app; [apply IH|]. simpl. split; [|exact I].
  apply digit_char_nodot, Z.mod_pos_bound. lia.
Qed.

Lemma string_of_uint_nodot d : nochar "." (NilEmpty.string_of_uint d).
Proof. induction d; simpl; (exact I || (split; [discriminate|assumption])). Qed.

Lemma str_of_Z_nodot n : nochar "." (Py.str_of_Z n).
Proof.
  unfold Py.str_of_Z, NilZero.string_of_uint.
  generalize (string_of_uint_nodot (N.to_uint (Z.to_N n))).
  destruct (N.to_uint (Z.to_N n)); intros H; try exact H.
  simpl. split; [discriminate|exact I].
Qed.

(** ** The grouping loop *)

Lemma rev_onto_spec l : forall acc,
  rev_onto l acc = string_of_list_ascii (rev l) ++ acc.
Proof.
  induction l as [|a l IH]; intros acc; simpl; [reflexivity|].
  rewrite IH, string_of_list_ascii_app, append_assoc. reflexivity.
Qed.

Lemma fold_group_step l : forall i acc,
  fold_left group_step (combine (seq i (List.length l)) l) acc =
  rev_onto (emitted i l) acc.
Proof.
  induction l as [|d l IH]; intros i acc; [reflexivity|].
  cbn [List.length seq combine fold_left emitted group_step].
  rewrite IH. destruct ((0 <? i)%nat && (i mod 3 =? 0)%nat); reflexivity.
Qed.

Lemma emitted_thousands n : forall l k,
  (List.length l <= n)%nat ->
  emitted (3 * k) l =
  match l with
  | [] => []
  | _ => ((if (0 <? k)%nat then [" "%char] else []) ++ thousands_rev l)%list
  end.
Proof.
  induction n as [|n IH]; intros l k Hl.
  - destruct l; [reflexivity|simpl in Hl; lia].
  - destruct l as [|a [|b [|c rest]]]; [reflexivity| | |].
    all: cbn [emitted].
    all: assert (E0 : ((3 * k) mod 3 =? 0)%nat = true)
      by (rewrite Nat.mul_comm, Nat.Div0.mod_mul; reflexivity).
    all: assert (E1 : (S (3 * k) mod 3 =? 0)%nat = false)
      by (replace (S (3 * k)) with (1 + k * 3)%nat by lia;
          rewrite Nat.Div0.mod_add; reflexivity).
    all: assert (E2 : (S (S (3 * k)) mod 3 =? 0)%nat = false)
      by (replace (S (S (3 * k))) with (2 + k * 3)%nat by lia;
          rewrite Nat.Div0.mod_add; reflexivity).
    all: assert (Ek : (0 <? 3 * k)%nat = (0 <? k)%nat)
      by (destruct k; [reflexivity|];
          symmetry; transitivity true; [reflexivity|symmetry; apply Nat.ltb_lt; lia]).
    all: rewrite E0, ?E1, ?E2, Ek, ?andb_false_r, ?andb_true_r.
    + reflexivity.
    + reflexivity.
    + replace (S (S (S (3 * k)))) with (3 * S k)%nat by lia.
      rewrite IH by (simpl in Hl; lia).
      destruct rest; reflexivity.
Qed.

Lemma group_loop_thousands s :
  fold_left group_step (Py.enumerate (rev (list_ascii_of_string s))) "" =
  thousands s.
Proof.
  unfold Py.enumerate, thousands.
  rewrite fold_group_step, rev_onto_spec, append_nil_r.
  rewrite (emitted_thousands _ _ 0%nat (Nat.le_refl _)).
  destruct (rev (list_ascii_of_string s)); reflexivity.
Qed.

(** ** The shape of the floats that [format_number] receives *)

Lemma Prim2SF_finite_nonneg (value : float) :
  is_finite value = true ->
  (0 <=? value)%float = true ->
  (value =? 0)%float = false ->
  exists m e, Prim2SF value = S754_finite false m e.
Proof.
  unfold is_finite, is_nan, is_infinity.
  rewrite leb_spec, !eqb_spec, abs_spec.
  change (Prim2SF 0) with (S754_zero false).
  change (Prim2SF infinity) with (S754_infinity false).
  destruct (Prim2SF value) as [s|s| |s m e]; cbn; intros Hf Hp H0;
    try discriminate.
  - destruct s; discriminate.
  - destruct s; [discriminate|]. now exists m, e.
Qed.

Lemma rstrip_cons_neq c a s :
  a <> c -> Py.rstrip c (String a s) = String a (Py.rstrip c s).
Proof.
  intros H. simpl. destruct (Py.rstrip c s); [|reflexivity].
  apply Ascii.eqb_neq in H. rewrite H. reflexivity.
Qed.

(** The code of [format_number] on a positive finite float. *)
Lemma format_number_finite (value : float) m e :
  Prim2SF value = S754_finite false m e ->
  (value =? 0)%float = false ->
  format_number value = render (Py.scaled10 m e).
Proof.
  intros Hv H0. unfold format_number, render, Py.format_10f.
  rewrite H0, Hv. cbn [Py.sign_str append].
  set (A := Py.str_of_Z _). set (P := Py.fixed_digits 10 _).
  assert (HA : nochar "." A) by apply str_of_Z_nodot.
  assert (HP : nochar "." (Py.rstrip "0" P)) by apply nochar_rstrip, fixed_digits_nodot.
  rewrite rstrip_app, rstrip_cons_neq by discriminate.
  rewrite rstrip_app. cbn [Py.rstrip]. rewrite (rstrip_nochar _ _ HP).
  destruct (Py.rstrip "0" P) as [|x r] eqn:EP.
  - cbn. rewrite (rstrip_nochar _ _ HA), (split_nochar _ _ HA). cbn [nth].
    rewrite append_nil_r. apply group_loop_thousands.
  - rewrite (split_app _ _ _ HA), (split_nochar _ _ HP). cbn [nth].
    rewrite group_loop_thousands. reflexivity.
Qed.

Lemma format_number_refines (value : float) :
  is_finite value = true ->
  (0 <=? value)%float = true ->
  format_number value = format_number_spec value.
Proof.
  intros Hf Hp. unfold format_number_spec.
  destruct (value =? 0)%float eqn:H0.
  - unfold format_number. rewrite H0. reflexivity.
  - destruct (Prim2SF_finite_nonneg value Hf Hp H0) as (m & e & Hv).
    unfold units10. rewrite Hv. apply format_number_finite; assumption.
Qed.

(** ** Lemmas on the monad *)

Lemma same_store_refl w : same_store w w.
Proof. repeat split. Qed.

Lemma same_store_trans w1 w2 w3 :
  same_store w1 w2 -> same_store w2 w3 -> same_store w1 w3.
Proof. unfold same_store. intuition congruence. Qed.

Lemma bind_ok {A B} (c : M A) (k : A -> M B) E w w' a :
  c E w = (w', Ok a) -> bind c k E w = k a E w'.
Proof. intros H. unfold bind. rewrite H. reflexivity. Qed.

Lemma bind_raise {A B} (c : M A) (k : A -> M B) E w w' e :
  c E w = (w', Raise e) -> bind c k E w = (w', Raise e).
Proof. intros H. unfold bind. rewrite H. reflexivity. Qed.

Lemma frames_ret {A} (a : A) : frames (ret a).
Proof. intros E w. apply same_store_refl. Qed.

Lemma frames_raise {A} e : frames (@raise A e).
Proof. intros E w. apply same_store_refl. Qed.

Lemma frames_gets {A} (f : world -> A) : frames (gets f).
Proof. intros E w. apply same_store_refl. Qed.

Lemma frames_interact {A} (f : env -> nat -> outcome A) : frames (interact f).
Proof. intros E w. repeat split. Qed.

Lemma frames_library_call {A} (f : env -> outcome A) : frames (library_call f).
Proof. intros E w. repeat split. Qed.

Lemma frames_emit ev : frames (modify (emit ev)).
Proof. intros E w. repeat split. Qed.

Lemma frames_bind {A B} (c : M A) (k : A -> M B) :
  frames c -> (forall a, frames (k a)) -> frames (bind c k).
Proof.
  intros Hc Hk E w. unfold bind. specialize (Hc E w).
  destruct (c E w) as [w' [a|e]]; simpl in *; [|exact Hc].
  eapply same_store_trans; [exact Hc|apply Hk].
Qed.

Lemma frames_try_except {A} (c : M A) (h : exn -> M A) :
  frames c -> (forall e, frames (h e)) -> frames (try_except c h).
Proof.
  intros Hc Hh E w. unfold try_except. specialize (Hc E w).
  destruct (c E w) as [w' [a|e]]; simpl in *; [exact Hc|].
  eapply same_store_trans; [exact Hc|apply Hh].
Qed.

Lemma returns_ret {A} (a : A) : returns (ret a).
Proof. intros E w. now exists a. Qed.

Lemma returns_gets {A} (f : world -> A) : returns (gets f).
Proof. intros E w. now exists (f w). Qed.

Lemma returns_modify f : returns (modify f).
Proof. intros E w. now exists tt. Qed.

Lemma returns_datetime_now : returns datetime_now.
Proof. intros E w. now exists (clock E (tick w)). Qed.

Lemma returns_bind {A B} (c : M A) (k : A -> M B) :
  returns c -> (forall a, returns (k a)) -> returns (bind c k).
Proof.
  intros Hc Hk E w. unfold bind. destruct (Hc E w) as [a Ha].
  destruct (c E w) as [w' r]; simpl in Ha; subst r. apply Hk.
Qed.

Lemma returns_try_except {A} (c : M A) (h : exn -> M A) :
  (forall e, returns (h e)) -> returns (try_except c h).
Proof.
  intros Hh E w. unfold try_except.
  destruct (c E w) as [w' [a|e]]; [now exists a|apply Hh].
Qed.

Create HintDb effects.

#[local] Hint Resolve frames_ret frames_raise frames_gets frames_interact
  frames_library_call frames_emit returns_ret returns_gets returns_modify
  returns_datetime_now : effects.

(** Decomposes a computation along its binds and case distinctions. *)
Ltac effects :=
  repeat first
    [ progress intros
    | solve [auto with effects]
    | apply frames_bind | apply returns_bind
    | apply frames_try_except | apply returns_try_except
    | match goal with
      | |- frames (match ?x with _ => _ end) => destruct x
      | |- returns (match ?x with _ => _ end) => destruct x
      | |- frames (if ?x then _ else _) => destruct x
      | |- returns (if ?x then _ else _) => destruct x
      end ].

(** A computation that returns and frames. *)
Lemma quiet_run {A} (c : M A) E w :
  frames c -> returns c ->
  exists w' a, c E w = (w', Ok a) /\ same_store w w'.
Proof.
  intros Hf Hr. specialize (Hf E w). destruct (Hr E w) as [a Ha].
  destruct (c E w) as [w' r]; simpl in *; subst r. now exists w', a.
Qed.

(** ** The functions called by the loop keep the variables of the program *)

Lemma frames_print line : frames (print line).
Proof. apply frames_emit. Qed.

Lemma returns_print line : returns (print line).
Proof. apply returns_modify. Qed.

Lemma frames_datetime_now : frames datetime_now.
Proof. apply frames_interact. Qed.

#[local] Hint Resolve frames_print returns_print frames_datetime_now : effects.

Lemma frames_get_usdc_balance address : frames (get_usdc_balance address).
Proof. unfold get_usdc_balance, balance_query, read_token_balance. effects. Qed.

Lemma returns_get_usdc_balance address : returns (get_usdc_balance address).
Proof. unfold get_usdc_balance. effects. Qed.

Lemma frames_get_received_in_period seconds :
  frames (get_received_in_period seconds).
Proof. unfold get_received_in_period. effects. Qed.

Lemma returns_get_received_in_period seconds :
  returns (get_received_in_period seconds).
Proof. unfold get_received_in_period. effects. Qed.

#[local] Hint Resolve frames_get_received_in_period
  returns_get_received_in_period : effects.

Lemma frames_get_statistics_data : frames get_statistics_data.
Proof. unfold get_statistics_data, received_if_elapsed. effects. Qed.

Lemma returns_get_statistics_data : returns get_statistics_data.
Proof. unfold get_statistics_data, received_if_elapsed. effects. Qed.

#[local] Hint Resolve frames_get_statistics_data returns_get_statistics_data
  : effects.

Lemma frames_print_statistics : frames print_statistics.
Proof. unfold print_statistics, print_optional. effects. Qed.

Lemma returns_print_statistics : returns print_statistics.
Proof. unfold print_statistics, print_optional. effects. Qed.

Lemma frames_send_discord_message content e :
  frames (send_discord_message content e).
Proof. unfold send_discord_message, post, raise_for_status. effects. Qed.

Lemma returns_send_discord_message content e :
  returns (send_discord_message content e).
Proof. unfold send_discord_message. effects. Qed.

#[local] Hint Resolve frames_send_discord_message
  returns_send_discord_message : effects.

Lemma frames_send_statistics_to_discord b t :
  frames (send_statistics_to_discord b t).
Proof. unfold send_statistics_to_discord. effects. Qed.

Lemma returns_send_statistics_to_discord b t :
  returns (send_statistics_to_discord b t).
Proof. unfold send_statistics_to_discord. effects. Qed.

(** ** Signs of computed floats *)












(** ** One turn of the loop *)

Lemma bind_datetime_now {B} (k : datetime -> M B) E w :
  bind datetime_now k E w = k (clock E (tick w)) E (advance w).
Proof. reflexivity. Qed.

Lemma bind_gets {A B} (f : world -> A) (k : A -> M B) E w :
  bind (gets f) k E w = k (f w) E w.
Proof. reflexivity. Qed.

(** The end of the body of the loop, after the balance has been compared:
    the reports on the console and to the webhook. *)
Lemma report_run (line : string) (b : float) (t : string) E w :
  exists w',
    (print line ;; print_statistics ;; send_statistics_to_discord b t ;;
     print "Ожидание следующей проверки..." ;; print "") E w = (w', Ok tt)
    /\ same_store w w'.
Proof.
  destruct (quiet_run
    (print line ;; print_statistics ;; send_statistics_to_discord b t ;;
     print "Ожидание следующей проверки..." ;; print "") E w)
    as (w' & [] & H & Hs).
  - pose proof frames_print_statistics. pose proof frames_send_statistics_to_discord.
    effects.
  - pose proof returns_print_statistics. pose proof returns_send_statistics_to_discord.
    effects.
  - now exists w'.
Qed.

Lemma monitor_iteration_run E w :
  exists w1 balance w2,
    get_usdc_balance MONITORED_ADDRESS E (advance w) = (w1, Ok balance) /\
    iteration_body get_usdc_balance print_statistics send_statistics_to_discord
      E w = (w2, Ok tt) /\
    monitor_iteration E w = (emit (Sleep CHECK_INTERVAL) w2, Ok tt) /\
    same_store (on_balance (clock E (tick w)) balance w) w2.
Proof.
  destruct (quiet_run (get_usdc_balance MONITORED_ADDRESS) E (advance w)
              (frames_get_usdc_balance _) (returns_get_usdc_balance _))
    as (w1 & balance & Hb & Ht & Hh & Hs & Hi).
  cbn in Ht, Hh, Hs, Hi.
  exists w1, balance.
  assert (Hbody : exists w2,
    iteration_body get_usdc_balance print_statistics send_statistics_to_discord
      E w = (w2, Ok tt) /\
    same_store (on_balance (clock E (tick w)) balance w) w2).
  { unfold iteration_body, on_balance.
    rewrite bind_datetime_now, (bind_ok _ _ _ _ _ _ Hb), bind_gets, Hi.
    destruct (initial_balance w <? balance)%float;
      [|destruct (balance <? initial_balance w)%float].
    all: erewrite bind_ok by reflexivity.
    all: match goal with
         | |- context [bind (print ?l) ?k ?E0 ?wx] =>
             destruct (report_run l balance (strftime (clock E0 (tick w))) E0 wx)
               as (w2 & Hr & Ht2 & Hh2 & Hs2 & Hi2)
         end.
    all: exists w2; split; [exact Hr|].
    all: cbn in Ht2, Hh2, Hs2, Hi2; repeat split; cbn; congruence. }
  destruct Hbody as (w2 & Hbody & Hstore).
  exists w2. split; [exact Hb|split; [exact Hbody|split; [|exact Hstore]]].
  unfold monitor_iteration, iteration, try_except, bind. rewrite Hbody. reflexivity.
Qed.

(** ** The running total and the history *)

Lemma sum_snoc l x : Py.sum (l ++ [x]) = (Py.sum l + x)%float.
Proof. unfold Py.sum. rewrite fold_left_app. reflexivity. Qed.

Lemma on_balance_total now balance w :
  total_matches_history w -> total_matches_history (on_balance now balance w).
Proof.
  unfold total_matches_history, on_balance. intros H.
  destruct (initial_balance w <? balance)%float;
    [|destruct (balance <? initial_balance w)%float]; try exact H.
  cbn [total_usdc_received transaction_history set_initial_balance
       set_transaction_history set_total_usdc_received].
  rewrite map_app. cbn [map snd]. rewrite sum_snoc, H. reflexivity.
Qed.

Lemma same_store_total w w' :
  same_store w w' -> total_matches_history w -> total_matches_history w'.
Proof.
  unfold total_matches_history. intros (Ht & Hh & _). congruence.
Qed.

Lemma monitor_iteration_total E w :
  total_matches_history w ->
  exists w', monitor_iteration E w = (w', Ok tt) /\ total_matches_history w'.
Proof.
  intros H.
  destruct (monitor_iteration_run E w) as (w1 & balance & w2 & _ & _ & Hrun & Hs).
  eexists. split; [exact Hrun|].
  apply (same_store_total (on_balance (clock E (tick w)) balance w)).
  - destruct Hs as (? & ? & ? & ?). repeat split; cbn; assumption.
  - apply on_balance_total, H.
Qed.

Lemma iterations_total n : forall E w,
  total_matches_history w ->
  exists w',
    iterations get_usdc_balance print_statistics send_statistics_to_discord n
      E w = (w', Ok tt) /\ total_matches_history w'.
Proof.
  induction n as [|n IH]; intros E w H.
  - exists w. split; [reflexivity|exact H].
  - destruct (monitor_iteration_total E w H) as (w1 & Hrun & H1).
    destruct (IH E w1 H1) as (w' & Hrest & H').
    exists w'. split; [|exact H'].
    cbn [iterations]. fold monitor_iteration.
    rewrite (bind_ok _ _ _ _ _ _ Hrun). exact Hrest.
Qed.

(** C1. Whatever the provider, the clock and the webhook do, and for every
    number [n] of turns of the loop, [monitor_usdc_transactions] reaches the
    end of the [n]-th turn without raising, and there the running total
    [total_usdc_received] is the sum, taken from left to right, of the amounts
    of the records of [transaction_history]. *)
Theorem running_total_is_sum_of_history (E : env) (n : nat) :
  exists w,
    monitor_usdc_transactions n E initial_world = (w, Ok tt) /\
    total_usdc_received w = Py.sum (map snd (transaction_history w)).
Proof.
  unfold monitor_usdc_transactions, monitor.
  do 6 (erewrite bind_ok by reflexivity).
  match goal with
  | |- context [bind (get_usdc_balance ?a) ?k E ?w0] =>
      destruct (quiet_run (get_usdc_balance a) E w0
                  (frames_get_usdc_balance _) (returns_get_usdc_balance _))
        as (w1 & balance & Hb & Ht & Hh & _ & _)
  end.
  rewrite (bind_ok _ _ _ _ _ _ Hb).
  do 5 (erewrite bind_ok by reflexivity).
  apply iterations_total.
  unfold total_matches_history. cbn. rewrite Ht, Hh. reflexivity.
Qed.

(** ** Inbound and outbound transfers *)

Lemma float_ltb_asym (x y : float) : (x <? y)%float = true -> (y <? x)%float = false.
Proof.
  rewrite !ltb_spec. unfold SFltb.
  destruct (Prim2SF x) as [sx|sx| |sx mx ex], (Prim2SF y) as [sy|sy| |sy my ey];
    cbn;
    try solve [ repeat match goal with s : bool |- _ => destruct s end; cbn;
                first [discriminate | intros; reflexivity] ].
  destruct sx, sy; try solve [discriminate | intros; reflexivity];
    rewrite (Z.compare_antisym ex ey);
    change (Pos.compare_cont Eq my mx) with (Pos.compare my mx);
    change (Pos.compare_cont Eq mx my) with (Pos.compare mx my);
    rewrite (Pos.compare_antisym mx my);
    destruct (ex ?= ey), (mx ?= my)%positive; cbn;
    first [discriminate | intros; reflexivity].
Qed.

Lemma inbound_step E w w1 balance :
  get_usdc_balance MONITORED_ADDRESS E (advance w) = (w1, Ok balance) ->
  (initial_balance w <? balance)%float = true ->
  exists w',
    monitor_iteration E w = (w', Ok tt) /\
    transaction_history w' =
      (transaction_history w
       ++ [(clock E (tick w), (balance - initial_balance w)%float)])%list /\
    total_usdc_received w' =
      (total_usdc_received w + (balance - initial_balance w))%float /\
    monitoring_start_time w' = monitoring_start_time w /\
    initial_balance w' = balance.
Proof.
  intros Hb Hup.
  destruct (monitor_iteration_run E w)
    as (w1' & balance' & w2 & Hb' & _ & Hrun & Ht & Hh & Hs & Hi).
  rewrite Hb in Hb'. injection Hb' as <- <-.
  unfold on_balance in Ht, Hh, Hs, Hi. rewrite Hup in Ht, Hh, Hs, Hi.
  cbn in Ht, Hh, Hs, Hi.
  eexists. split; [exact Hrun|]. cbn. auto.
Qed.

Lemma outbound_step E w w1 balance :
  get_usdc_balance MONITORED_ADDRESS E (advance w) = (w1, Ok balance) ->
  (balance <? initial_balance w)%float = true ->
  exists w',
    monitor_iteration E w = (w', Ok tt) /\
    transaction_history w' = transaction_history w /\
    total_usdc_received w' = total_usdc_received w /\
    monitoring_start_time w' = monitoring_start_time w /\
    initial_balance w' = balance.
Proof.
  intros Hb Hdown.
  destruct (monitor_iteration_run E w)
    as (w1' & balance' & w2 & Hb' & _ & Hrun & Ht & Hh & Hs & Hi).
  rewrite Hb in Hb'. injection Hb' as <- <-.
  unfold on_balance in Ht, Hh, Hs, Hi.
  rewrite (float_ltb_asym _ _ Hdown), Hdown in Ht, Hh, Hs, Hi.
  cbn in Ht, Hh, Hs, Hi.
  eexists. split; [exact Hrun|]. cbn. auto.
Qed.


(** C6. In a turn of the loop in which the balance just read is strictly
    less than the baseline, the loop returns normally, makes the balance the
    new baseline and leaves the history, the running total and the start of
    the session as they are; and in the next turn a balance strictly greater
    than this new baseline is recorded as an inbound amount counted from the
    new baseline. *)
Theorem outbound_transfer_only_resets_baseline
    (E : env) (w w1 : world) (balance : float) :
  get_usdc_balance MONITORED_ADDRESS E (advance w) = (w1, Ok balance) ->
  (balance <? initial_balance w)%float = true ->
  exists w',
    monitor_iteration E w = (w', Ok tt) /\
    transaction_history w' = transaction_history w /\
    total_usdc_received w' = total_usdc_received w /\
    monitoring_start_time w' = monitoring_start_time w /\
    initial_balance w' = balance /\
    forall w2 later,
      get_usdc_balance MONITORED_ADDRESS E (advance w') = (w2, Ok later) ->
      (balance <? later)%float = true ->
      exists w'',
        monitor_iteration E w' = (w'', Ok tt) /\
        transaction_history w'' =
          (transaction_history w
           ++ [(clock E (tick w'), (later - balance)%float)])%list /\
        total_usdc_received w'' =
          (total_usdc_received w + (later - balance))%float /\
        initial_balance w'' = later.
Proof.
  intros Hb Hdown.
  destruct (outbound_step E w w1 balance Hb Hdown)
    as (w' & Hrun & Hh & Ht & Hs & Hi).
  exists w'. repeat (split; [assumption|]).
  intros w2 later Hb2 Hup. rewrite <- Hi in Hup.
  destruct (inbound_step E w' w2 later Hb2 Hup)
    as (w'' & Hrun2 & Hh2 & Ht2 & _ & Hi2).
  exists w''. rewrite Hh2, Ht2, Hh, Ht, Hi. auto.
Qed.


Lemma outbound_transfer_only_resets_baseline_witness :
  let E := poll_env (fun n => if (n <=? 4)%nat then 120%float else 130%float) in
  exists w',
    monitor_iteration E (world_with_baseline 150) = (w', Ok tt) /\
    transaction_history w' = [] /\
    total_usdc_received w' = 0%float /\
    initial_balance w' = 120%float /\
    exists w'',
      monitor_iteration E w' = (w'', Ok tt) /\
      transaction_history w'' = [(63898029304000000, 10%float)] /\
      total_usdc_received w'' = 10%float /\
      initial_balance w'' = 130%float.
Proof.
  intros E.
  destruct (outbound_transfer_only_resets_baseline E (world_with_baseline 150)
              _ 120%float eq_refl eq_refl)
    as (w' & Hrun & Hh & Ht & Hs & Hi & Hlater).
  exists w'. repeat (split; [assumption|]).
  vm_compute in Hrun. injection Hrun as <-.
  exact (Hlater _ 130%float eq_refl eq_refl).
Defined.

(** ** Windowed sums *)

Lemma amounts_since_window now seconds history :
  amounts_since (now - timedelta_seconds seconds) history =
  map snd (window_records now seconds history).
Proof.
  unfold window_records, timedelta_seconds.
  induction history as [|[timestamp amount] rest IH]; [reflexivity|].
  cbn [amounts_since filter fst].
  destruct (now - seconds * 1000000 <=? timestamp); cbn [map snd]; congruence.
Qed.



(** ** Statistics *)




(** ** NotificationSink *)



(** ** Exceptions in the loop *)



(** ** BalanceReader *)

Lemma bind_interact {A B} (f : env -> nat -> outcome A) (k : A -> M B) E w :
  bind (interact f) k E w =
  match f E (tick w) with
  | Returns a => k a E (advance w)
  | Raises e => (advance w, Raise e)
  end.
Proof. unfold bind, interact. destruct (f E (tick w)); reflexivity. Qed.

Lemma bind_library_call {A B} (f : env -> outcome A) (k : A -> M B) E w :
  bind (library_call f) k E w =
  match f E with
  | Returns a => k a E w
  | Raises e => (w, Raise e)
  end.
Proof. unfold bind, library_call. destruct (f E); reflexivity. Qed.

Lemma read_token_balance_run key info E w :
  read_token_balance key info E w =
  (advance w,
   Ok match token_account_balance E (tick w) key with
      | Returns (Some value) => Some (Py.or_zero (ui_amount value))
      | Returns None => None
      | Raises _ => balance_from_account_data info
      end).
Proof.
  unfold read_token_balance, try_except. rewrite bind_interact.
  destruct (token_account_balance E (tick w) key) as [[value|]|e]; reflexivity.
Qed.

(** [balance_query] in terms of the answers of the provider. *)
Lemma balance_query_run address E w :
  balance_query address E w =
  match new_client E (tick w) SOLANA_RPC_URL with
  | Raises e => (advance w, Raise e)
  | Returns _ =>
  match pubkey_from_string E address with
  | Raises e => (advance w, Raise e)
  | Returns owner =>
  match pubkey_from_string E USDC_MINT_ADDRESS with
  | Raises e => (advance w, Raise e)
  | Returns mint =>
  match token_accounts_by_owner E (S (tick w)) owner mint with
  | Raises e => (advance (advance w), Raise e)
  | Returns [] => (advance (advance w), Ok 0%float)
  | Returns (acct :: _) =>
  match account_info E (S (S (tick w))) (ka_pubkey acct) with
  | Raises e => (advance (advance (advance w)), Raise e)
  | Returns info =>
      (advance (advance (advance (advance w))),
       Ok match token_account_balance E (S (S (S (tick w)))) (ka_pubkey acct) with
          | Returns (Some value) => Py.or_zero (ui_amount value)
          | Returns None => 0%float
          | Raises _ =>
              match balance_from_account_data info with
              | Some balance => balance
              | None => 0%float
              end
          end)
  end end end end end.
Proof.
  unfold balance_query. rewrite bind_interact.
  destruct (new_client E (tick w) SOLANA_RPC_URL) as [u|e]; [|reflexivity].
  rewrite bind_library_call.
  destruct (pubkey_from_string E address) as [owner|e]; [|reflexivity].
  rewrite bind_library_call.
  destruct (pubkey_from_string E USDC_MINT_ADDRESS) as [mint|e]; [|reflexivity].
  rewrite bind_interact. cbn [tick advance].
  destruct (token_accounts_by_owner E (S (tick w)) owner mint)
    as [[|acct rest]|e]; [reflexivity| |reflexivity].
  rewrite bind_interact. cbn [tick advance].
  destruct (account_info E (S (S (tick w))) (ka_pubkey acct)) as [info|e];
    [|reflexivity].
  unfold bind. rewrite read_token_balance_run. cbn [tick advance].
  destruct (token_account_balance E (S (S (S (tick w)))) (ka_pubkey acct))
    as [[value|]|e]; try reflexivity.
  destruct (balance_from_account_data info); reflexivity.
Qed.

Lemma get_usdc_balance_run address E w :
  get_usdc_balance address E w =
  match balance_query address E w with
  | (w1, Ok balance) => (w1, Ok balance)
  | (w1, Raise e) =>
      (emit (Print ("Ошибка при получении баланса: " ++ str_exn e)) w1,
       Ok 0%float)
  end.
Proof.
  unfold get_usdc_balance, try_except.
  destruct (balance_query address E w) as [w1 [b|e]]; reflexivity.
Qed.







(** ** NumberFormatter *)

(** C2. [format_number] renders zero as ["0"] and [1234567.5] as
    ["1 234 567.5"]; and for every finite float that is not negative its
    result is the one the specification describes: ["0"] for zero, and
    otherwise the value fixed to ten fractional digits (rounded to the
    nearest, ties to even), the integer digits grouped by three from the
    right with spaces, the fraction without its trailing zeros and never
    grouped, and no decimal point when no fractional digit is left. *)
Theorem format_number_correct :
  format_number 0 = "0" /\
  format_number 1234567.5 = "1 234 567.5" /\
  forall value : float,
    is_finite value = true ->
    (0 <=? value)%float = true ->
    format_number value = format_number_spec value.
Proof.
  split; [reflexivity|]. split; [vm_compute; reflexivity|].
  exact format_number_refines.
Qed.

Lemma format_number_correct_witness :
  format_number 1234567.5 = format_number_spec 1234567.5 /\
  format_number 0.1 = format_number_spec 0.1 /\
  format_number_spec 0.1 = "0.1" /\
  format_number_spec 1234567.5 = "1 234 567.5".
Proof.
  split; [|split].
  - exact (proj2 (proj2 format_number_correct) 1234567.5%float eq_refl eq_refl).
  - exact (proj2 (proj2 format_number_correct) 0.1%float eq_refl eq_refl).
  - split; vm_compute; reflexivity.
Defined.

(** ** Amounts that render as zero *)

Lemma digits2_pos_bound m : Zpos m < 2 ^ Zpos (digits2_pos m).
Proof.
  induction m as [m IH|m IH|]; cbn [digits2_pos];
    rewrite ?Pos2Z.inj_succ, ?Z.pow_succ_r by lia; lia.
Qed.

Lemma valid_mantissa_bound s m e :
  valid_binary (S754_finite s m e) = true -> Zpos m < 2 ^ 53.
Proof.
  unfold SpecFloat.valid_binary, bounded, canonical_mantissa, fexp, SpecFloat.emin.
  intros H. apply andb_prop in H. destruct H as [H _]. apply Z.eqb_eq in H.
  assert (Hd : Zpos (digits2_pos m) <= 53) by (unfold prec, emax in H; lia).
  pose proof (digits2_pos_bound m).
  pose proof (Z.pow_le_mono_r 2 _ 53 ltac:(lia) Hd). lia.
Qed.

Lemma round_half_even_small num den :
  0 <= num -> 2 * num < den -> Py.round_half_even num den = 0.
Proof.
  intros H0 H. unfold Py.round_half_even.
  rewrite Z.div_small, Z.mod_small by lia.
  apply Z.compare_lt_iff in H. rewrite H. reflexivity.
Qed.

Lemma Prim2SF_5e_11 :
  Prim2SF 5e-11 = S754_finite false 7737125245533627 (-87).
Proof. vm_compute. reflexivity. Qed.

(** A positive float below [5e-11] has no unit of [10^-10]. *)
Lemma scaled10_tiny (value : float) m e :
  Prim2SF value = S754_finite false m e ->
  (value <? 5e-11)%float = true ->
  Py.scaled10 m e = 0.
Proof.
  intros Hv Hlt.
  pose proof (Prim2SF_valid value) as Hvalid. rewrite Hv in Hvalid.
  apply valid_mantissa_bound in Hvalid.
  rewrite ltb_spec, Hv, Prim2SF_5e_11 in Hlt. unfold SFltb in Hlt.
  cbn [SFcompare] in Hlt.
  assert (Hcmp : e < -87 \/ e = -87 /\ Zpos m < 7737125245533627).
  { destruct (Z.compare_spec e (-87)) as [He|He|He]; try discriminate.
    - right. split; [exact He|].
      apply Pos2Z.pos_lt_pos, Pos.compare_lt_iff.
      destruct (Pos.compare_cont Eq m 7737125245533627) eqn:Hc;
        try discriminate. exact Hc.
    - left. exact He. }
  clear Hlt.
  assert (Hsmall : e < 0 /\ 2 * (Zpos m * 10 ^ 10) < 2 ^ (- e)).
  { change (2 ^ 53) with 9007199254740992 in Hvalid.
    change (10 ^ 10) with 10000000000.
    destruct Hcmp as [He|[He Hm]].
    - split; [lia|].
      pose proof (Z.pow_le_mono_r 2 88 (- e) ltac:(lia) ltac:(lia)) as Hp.
      change (2 ^ 88) with 309485009821345068724781056 in Hp. lia.
    - subst e. change (2 ^ (- -87)) with 154742504910672534362390528.
      split; lia. }
  destruct Hsmall as [He Hs].
  destruct e as [|p|p]; try lia.
  unfold Py.scaled10. apply round_half_even_small; [lia|exact Hs].
Qed.

Lemma format_number_tiny (value : float) :
  (0 <? value)%float = true ->
  (value <? 5e-11)%float = true ->
  (value =? 0)%float = false /\ format_number value = "0".
Proof.
  intros Hpos Hlt.
  assert (Hshape : exists m e, Prim2SF value = S754_finite false m e).
  { pose proof Hpos as H1. pose proof Hlt as H2.
    rewrite ltb_spec in H1, H2. rewrite Prim2SF_5e_11 in H2.
    change (Prim2SF 0) with (S754_zero false) in H1.
    destruct (Prim2SF value) as [s|s| |s m e]; cbn [SFltb SFcompare] in H1, H2;
      try discriminate.
    - destruct s; discriminate.
    - destruct s; [discriminate|]. now exists m, e. }
  destruct Hshape as (m & e & Hv).
  assert (H0 : (value =? 0)%float = false).
  { rewrite eqb_spec, Hv. reflexivity. }
  split; [exact H0|].
  rewrite (format_number_finite value m e Hv H0), (scaled10_tiny value m e Hv Hlt).
  reflexivity.
Qed.

(** C10. Every float strictly between zero and [5e-11] is not equal to zero
    and yet [format_number] renders it as ["0"], as it renders zero: the
    output ["0"] does not tell that the amount was zero. *)
Theorem format_number_zero_for_tiny_amounts (value : float) :
  (0 <? value)%float = true ->
  (value <? 5e-11)%float = true ->
  (value =? 0)%float = false /\
  format_number value = "0" /\
  format_number value = format_number 0.
Proof.
  intros Hpos Hlt. destruct (format_number_tiny value Hpos Hlt) as [H0 H].
  repeat split; assumption.
Qed.

Lemma format_number_zero_for_tiny_amounts_witness :
  (1e-11 =? 0)%float = false /\
  format_number 1e-11 = "0" /\
  format_number 1e-11 = format_number 0.
Proof.
  exact (format_number_zero_for_tiny_amounts 1e-11%float eq_refl eq_refl).
Defined.

(** ** What the functions do to the events and to the interaction counter *)

Lemma observes_ret {A} (a : A) : observes (ret a).
Proof. intros E w. split; [cbn; lia|]. exists []. now rewrite app_nil_r. Qed.

Lemma observes_raise {A} e : observes (@raise A e).
Proof. intros E w. split; [cbn; lia|]. exists []. now rewrite app_nil_r. Qed.

Lemma observes_gets {A} (f : world -> A) : observes (gets f).
Proof. intros E w. split; [cbn; lia|]. exists []. now rewrite app_nil_r. Qed.

Lemma observes_interact {A} (f : env -> nat -> outcome A) : observes (interact f).
Proof. intros E w. split; [cbn; lia|]. exists []. cbn. now rewrite app_nil_r. Qed.

Lemma observes_library_call {A} (f : env -> outcome A) :
  observes (library_call f).
Proof. intros E w. split; [cbn; lia|]. exists []. cbn. now rewrite app_nil_r. Qed.

Lemma observes_print line : observes (print line).
Proof. intros E w. split; [cbn; lia|]. now exists [Print line]. Qed.

Lemma observes_bind {A B} (c : M A) (k : A -> M B) :
  observes c -> (forall a, observes (k a)) -> observes (bind c k).
Proof.
  intros Hc Hk E w. unfold bind. specialize (Hc E w).
  destruct (c E w) as [w1 [a|e]]; cbn [fst] in *; [|exact Hc].
  destruct Hc as (Ht & l1 & Hl1 & Hp1).
  destruct (Hk a E w1) as (Ht2 & l2 & Hl2 & Hp2).
  split; [lia|]. exists (l1 ++ l2)%list.
  rewrite Hl2, Hl1, app_assoc, forallb_app, Hp1, Hp2. now split.
Qed.

Lemma observes_try_except {A} (c : M A) (h : exn -> M A) :
  observes c -> (forall e, observes (h e)) -> observes (try_except c h).
Proof.
  intros Hc Hh E w. unfold try_except. specialize (Hc E w).
  destruct (c E w) as [w1 [a|e]]; cbn [fst] in *; [exact Hc|].
  destruct Hc as (Ht & l1 & Hl1 & Hp1).
  destruct (Hh e E w1) as (Ht2 & l2 & Hl2 & Hp2).
  split; [lia|]. exists (l1 ++ l2)%list.
  rewrite Hl2, Hl1, app_assoc, forallb_app, Hp1, Hp2. now split.
Qed.

#[local] Hint Resolve observes_ret observes_raise observes_gets
  observes_interact observes_library_call observes_print : effects.

Ltac observing :=
  repeat first
    [ progress intros
    | solve [auto with effects]
    | apply observes_bind
    | apply observes_try_except
    | match goal with
      | |- observes (match ?x with _ => _ end) => destruct x
      | |- observes (if ?x then _ else _) => destruct x
      end ].

Lemma observes_datetime_now : observes datetime_now.
Proof. apply observes_interact. Qed.

#[local] Hint Resolve observes_datetime_now : effects.

Lemma observes_get_usdc_balance address : observes (get_usdc_balance address).
Proof. unfold get_usdc_balance, balance_query, read_token_balance. observing. Qed.

Lemma observes_get_received_in_period seconds :
  observes (get_received_in_period seconds).
Proof. unfold get_received_in_period. observing. Qed.

#[local] Hint Resolve observes_get_received_in_period : effects.

Lemma observes_get_statistics_data : observes get_statistics_data.
Proof. unfold get_statistics_data, received_if_elapsed. observing. Qed.

#[local] Hint Resolve observes_get_statistics_data : effects.

Lemma observes_print_statistics : observes print_statistics.
Proof. unfold print_statistics, print_optional. observing. Qed.

(** A computation that returns, frames and observes. *)
Lemma observer_run {A} (c : M A) E w :
  frames c -> returns c -> observes c ->
  exists w' a l,
    c E w = (w', Ok a) /\ same_store w w' /\ (tick w <= tick w')%nat /\
    trace w' = (trace w ++ l)%list /\ forallb is_print l = true.
Proof.
  intros Hf Hr Ho.
  destruct (quiet_run c E w Hf Hr) as (w' & a & Hrun & Hs).
  destruct (Ho E w) as (Ht & l & Hl & Hp). rewrite Hrun in Ht, Hl.
  now exists w', a, l.
Qed.

(** ** The notification, step by step *)

Lemma send_discord_message_run content embed_arg E w :
  exists w' delivered l,
    send_discord_message content embed_arg E w = (w', Ok delivered) /\
    same_store w w' /\ tick w' = S (tick w) /\
    trace w' =
      (trace w
       ++ HttpPost DISCORD_WEBHOOK_URL (discord_payload content embed_arg) 10
       :: l)%list /\
    forallb is_print l = true.
Proof.
  unfold send_discord_message, try_except, post.
  fold (discord_payload content embed_arg).
  set (body := discord_payload content embed_arg).
  unfold bind at 1. unfold bind at 1. cbn [modify].
  unfold interact at 1. cbn [tick emit].
  destruct (requests_post E (tick w) DISCORD_WEBHOOK_URL body 10) as [r|e].
  - unfold raise_for_status.
    destruct ((400 <=? status_code r) && (status_code r <? 500));
      [|destruct ((500 <=? status_code r) && (status_code r <? 600))].
    + eexists; exists false; eexists. split; [reflexivity|].
      cbn [trace emit advance tick]. rewrite <- app_assoc.
      repeat split.
    + eexists; exists false; eexists. split; [reflexivity|].
      cbn [trace emit advance tick]. rewrite <- app_assoc.
      repeat split.
    + eexists; exists true, []. split; [reflexivity|]. repeat split.
  - eexists; exists false; eexists. split; [reflexivity|].
    cbn [trace emit advance tick]. rewrite <- app_assoc. repeat split.
Qed.

(** ** The statistics, step by step *)

Lemma get_received_in_period_steps seconds E w :
  exists w',
    get_received_in_period seconds E w =
      (w', Ok (sum_in_window (clock E (tick w)) seconds (transaction_history w)))
    /\ same_store w w' /\ trace w' = trace w /\ (tick w <= tick w')%nat.
Proof.
  unfold get_received_in_period. rewrite bind_gets.
  destruct (transaction_history w) as [|r rest] eqn:Hh.
  - exists w. repeat split. lia.
  - exists (advance w). rewrite bind_datetime_now. unfold ret, sum_in_window.
    rewrite amounts_since_window. repeat split. cbn. lia.
Qed.

Lemma received_if_elapsed_steps elapsed seconds E w :
  exists w' v,
    received_if_elapsed elapsed seconds E w =
      (w', Ok (if seconds * 1000000 <=? elapsed then Some v else None))
    /\ same_store w w' /\ trace w' = trace w /\ (tick w <= tick w')%nat.
Proof.
  unfold received_if_elapsed, total_seconds_ge.
  destruct (seconds * 1000000 <=? elapsed).
  - destruct (get_received_in_period_steps seconds E w)
      as (w' & Hrun & Hs & Htr & Ht).
    eexists w', _. rewrite (bind_ok _ _ _ _ _ _ Hrun).
    split; [reflexivity|]. split; [exact Hs|]. split; [exact Htr|exact Ht].
  - exists w, 0%float. repeat split. lia.
Qed.

Lemma get_statistics_data_steps E w :
  exists w' stats v15 v60 v24,
    get_statistics_data E w = (w', Ok stats) /\
    same_store w w' /\ trace w' = trace w /\ (tick w < tick w')%nat /\
    let elapsed := elapsed_since (monitoring_start_time w) (clock E (tick w)) in
    last_15_min stats = (if 900 * 1000000 <=? elapsed then Some v15 else None) /\
    last_hour stats = (if 3600 * 1000000 <=? elapsed then Some v60 else None) /\
    last_24h stats = (if 86400 * 1000000 <=? elapsed then Some v24 else None).
Proof.
  unfold get_statistics_data.
  rewrite bind_datetime_now, bind_gets.
  change (monitoring_start_time (advance w)) with (monitoring_start_time w).
  set (elapsed := elapsed_since (monitoring_start_time w) (clock E (tick w))).
  destruct (get_received_in_period_steps 300 E (advance w))
    as (w1 & H1 & Hs1 & Htr1 & Ht1).
  destruct (received_if_elapsed_steps elapsed 900 E w1)
    as (w2 & v15 & H2 & Hs2 & Htr2 & Ht2).
  destruct (received_if_elapsed_steps elapsed 3600 E w2)
    as (w3 & v60 & H3 & Hs3 & Htr3 & Ht3).
  destruct (received_if_elapsed_steps elapsed 86400 E w3)
    as (w4 & v24 & H4 & Hs4 & Htr4 & Ht4).
  rewrite (bind_ok _ _ _ _ _ _ H1), (bind_ok _ _ _ _ _ _ H2),
    (bind_ok _ _ _ _ _ _ H3), (bind_ok _ _ _ _ _ _ H4).
  eexists w4, _, v15, v60, v24. split; [reflexivity|].
  split; [|split; [|split; [|repeat split]]].
  - assert (H0 : same_store w (advance w)) by (repeat split).
    eauto using same_store_trans.
  - rewrite Htr4, Htr3, Htr2, Htr1. reflexivity.
  - cbn [tick advance] in Ht1. lia.
Qed.


Lemma send_statistics_to_discord_steps current_balance current_time_str E w :
  exists w' e l,
    send_statistics_to_discord current_balance current_time_str E w = (w', Ok tt) /\
    same_store w w' /\ (tick w < tick w')%nat /\
    trace w' =
      (trace w
       ++ HttpPost DISCORD_WEBHOOK_URL
            {| p_content := ""; p_embeds := Some [e] |} 10 :: l)%list /\
    forallb is_print l = true /\
    let k := windows_elapsed
               (elapsed_since (monitoring_start_time w) (clock E (tick w))) in
    List.length (e_fields e) = (2 + k)%nat /\
    nth_error (e_fields e) 0 = Some (usdc_field "💰 Текущий баланс" current_balance) /\
    forallb (fun f => negb (f_inline f)) (e_fields e) = true /\
    e_footer_text e = "Адрес: 9ApaAe39...hS88pRNp".
Proof.
  destruct (get_statistics_data_steps E w)
    as (w1 & stats & v15 & v60 & v24 & Hrun & Hs & Htr & Ht & H15 & H60 & H24).
  unfold send_statistics_to_discord.
  rewrite (bind_ok _ _ _ _ _ _ Hrun), H15, H60, H24.
  match goal with
  | |- context [send_discord_message ?c ?e] =>
      destruct (send_discord_message_run c e E w1)
        as (w2 & delivered & l & Hsend & Hs2 & Ht2 & Htr2 & Hl)
  end.
  rewrite (bind_ok _ _ _ _ _ _ Hsend).
  eexists w2, _, l. split; [reflexivity|].
  split; [eauto using same_store_trans|]. split; [lia|].
  split; [rewrite Htr2, Htr; reflexivity|]. split; [exact Hl|].
  set (elapsed := elapsed_since (monitoring_start_time w) (clock E (tick w))).
  unfold windows_elapsed. cbn [filter e_fields e_footer_text].
  destruct (900 * 1000000 <=? elapsed), (3600 * 1000000 <=? elapsed),
    (86400 * 1000000 <=? elapsed); repeat split.
Qed.


(** ** One turn of the loop, with its events *)

Lemma forallb_is_print_app l1 l2 :
  forallb is_print l1 = true -> forallb is_print l2 = true ->
  forallb is_print (l1 ++ l2) = true.
Proof. intros H1 H2. now rewrite forallb_app, H1, H2. Qed.

Lemma report_effects (line : string) (b : float) (t : string) E w :
  exists w' l1 body l2,
    (print line ;; print_statistics ;; send_statistics_to_discord b t ;;
     print "Ожидание следующей проверки..." ;; print "") E w = (w', Ok tt) /\
    same_store w w' /\ (tick w < tick w')%nat /\
    trace w' =
      (trace w ++ l1 ++ HttpPost DISCORD_WEBHOOK_URL body 10 :: l2)%list /\
    forallb is_print l1 = true /\ forallb is_print l2 = true.
Proof.
  erewrite bind_ok by reflexivity.
  destruct (observer_run print_statistics E (emit (Print line) w)
              frames_print_statistics returns_print_statistics
              observes_print_statistics)
    as (wa & [] & ls & Hps & Hsa & Hta & Htra & Hls).
  rewrite (bind_ok _ _ _ _ _ _ Hps).
  destruct (send_statistics_to_discord_steps b t E wa)
    as (wb & e & l & Hsend & Hsb & Htb & Htrb & Hl & _).
  rewrite (bind_ok _ _ _ _ _ _ Hsend).
  eexists _, (Print line :: ls), _,
    (l ++ [Print "Ожидание следующей проверки..."; Print ""])%list.
  split; [reflexivity|].
  split; [|split; [|split; [|split]]].
  - destruct Hsa as (? & ? & ? & ?), Hsb as (? & ? & ? & ?).
    cbn [total_usdc_received transaction_history monitoring_start_time
         initial_balance emit] in *.
    repeat split;
      cbn [total_usdc_received transaction_history monitoring_start_time
           initial_balance emit]; congruence.
  - cbn [tick emit] in *. lia.
  - cbn [trace emit] in *. rewrite Htrb, Htra, <- !app_assoc. reflexivity.
  - exact Hls.
  - apply forallb_is_print_app; [exact Hl|reflexivity].
Qed.

Lemma monitor_iteration_effects E w :
  exists w1 balance w' l1 body l2,
    get_usdc_balance MONITORED_ADDRESS E (advance w) = (w1, Ok balance) /\
    monitor_iteration E w = (w', Ok tt) /\
    same_store (on_balance (clock E (tick w)) balance w) w' /\
    (tick w < tick w')%nat /\
    trace w' =
      (trace w ++ l1 ++ HttpPost DISCORD_WEBHOOK_URL body 10 :: l2
       ++ [Sleep CHECK_INTERVAL])%list /\
    forallb is_print l1 = true /\ forallb is_print l2 = true.
Proof.
  destruct (observer_run (get_usdc_balance MONITORED_ADDRESS) E (advance w)
              (frames_get_usdc_balance _) (returns_get_usdc_balance _)
              (observes_get_usdc_balance _))
    as (w1 & balance & la & Hb & (Ht & Hh & Hs & Hi) & Htick & Htr & Hla).
  cbn [total_usdc_received transaction_history monitoring_start_time
       initial_balance trace tick advance] in Ht, Hh, Hs, Hi, Htick, Htr.
  exists w1, balance.
  assert (Hbody : exists w2 l1 body l2,
    iteration_body get_usdc_balance print_statistics send_statistics_to_discord
      E w = (w2, Ok tt) /\
    same_store (on_balance (clock E (tick w)) balance w) w2 /\
    (tick w < tick w2)%nat /\
    trace w2 =
      (trace w ++ l1 ++ HttpPost DISCORD_WEBHOOK_URL body 10 :: l2)%list /\
    forallb is_print l1 = true /\ forallb is_print l2 = true).
  { unfold iteration_body, on_balance.
    rewrite bind_datetime_now, (bind_ok _ _ _ _ _ _ Hb), bind_gets, Hi.
    destruct (initial_balance w <? balance)%float;
      [|destruct (balance <? initial_balance w)%float].
    all: erewrite bind_ok by reflexivity.
    all: match goal with
         | |- context [bind (print ?l) ?k ?E0 ?wx] =>
             assert (Hx : exists lb,
                       trace wx = (trace w1 ++ lb)%list /\
                       forallb is_print lb = true)
               by (first
                     [ exists []; split; [symmetry; apply app_nil_r|reflexivity]
                     | eexists; split;
                       [ cbn [trace emit set_initial_balance
                              set_transaction_history set_total_usdc_received];
                         rewrite <- ?app_assoc; reflexivity
                       | cbn [forallb is_print andb]; reflexivity ] ]);
             destruct Hx as (lb & Hx & Hlb);
             destruct (report_effects l balance (strftime (clock E0 (tick w))) E0 wx)
               as (w2 & lp & body & l2 & Hr & (Ht2 & Hh2 & Hs2 & Hi2)
                   & Htick2 & Htr2 & Hlp & Hl2)
         end.
    all: rewrite Hx in Htr2.
    all: cbn [total_usdc_received transaction_history monitoring_start_time
              initial_balance tick emit set_initial_balance
              set_transaction_history set_total_usdc_received]
           in Ht2, Hh2, Hs2, Hi2, Htick2.
    all: exists w2, (la ++ lb ++ lp)%list, body, l2; split; [exact Hr|].
    all: split; [repeat split; cbn; congruence|].
    all: split; [lia|].
    all: split; [rewrite Htr2, Htr, <- !app_assoc; reflexivity|].
    all: split; [|exact Hl2].
    all: repeat apply forallb_is_print_app; assumption. }
  destruct Hbody as (w2 & l1 & body & l2 & Hbody & Hstore & Htick2 & Htr2 & H1 & H2).
  exists (emit (Sleep CHECK_INTERVAL) w2), l1, body, l2.
  split; [exact Hb|]. split.
  { unfold monitor_iteration, iteration, try_except, bind. rewrite Hbody.
    reflexivity. }
  split; [exact Hstore|]. split; [exact Htick2|].
  split; [|split; assumption].
  cbn [trace emit]. rewrite Htr2, <- !app_assoc. reflexivity.
Qed.

(** ** Induction on the turns of the loop *)

Lemma iterations_induction E (P : nat -> world -> Prop) :
  (forall k w w', P k w -> monitor_iteration E w = (w', Ok tt) -> P (S k) w') ->
  forall n k w,
    P k w ->
    exists w',
      iterations get_usdc_balance print_statistics send_statistics_to_discord n
        E w = (w', Ok tt) /\ P (k + n)%nat w'.
Proof.
  intros Hstep n. induction n as [|n IH]; intros k w H.
  - exists w. rewrite Nat.add_0_r. split; [reflexivity|exact H].
  - destruct (monitor_iteration_effects E w)
      as (w1 & balance & w' & _ & _ & _ & _ & Hrun & _).
    destruct (IH (S k) w' (Hstep k w w' H Hrun)) as (w'' & Hrest & H'').
    exists w''. rewrite Nat.add_succ_r. split; [|exact H''].
    cbn [iterations]. fold monitor_iteration.
    rewrite (bind_ok _ _ _ _ _ _ Hrun). exact Hrest.
Qed.

(** The start of [monitor_usdc_transactions]: banner, first balance, start of
    the session. *)
Lemma monitor_start E n :
  exists w0 balance l0,
    monitor_usdc_transactions n E initial_world =
      iterations get_usdc_balance print_statistics send_statistics_to_discord n
        E w0 /\
    total_usdc_received w0 = 0%float /\
    transaction_history w0 = [] /\
    monitoring_start_time w0 = Some (clock E (Nat.pred (tick w0))) /\
    initial_balance w0 = balance /\
    trace w0 = l0 /\ forallb is_print l0 = true /\ (0 < tick w0)%nat.
Proof.
  unfold monitor_usdc_transactions, monitor.
  do 6 (erewrite bind_ok by reflexivity).
  match goal with
  | |- context [bind (get_usdc_balance ?a) ?k E ?wx] =>
      destruct (observer_run (get_usdc_balance a) E wx
                  (frames_get_usdc_balance _) (returns_get_usdc_balance _)
                  (observes_get_usdc_balance _))
        as (w1 & balance & la & Hb & (Ht & Hh & Hs & Hi) & Htick & Htr & Hla)
  end.
  rewrite (bind_ok _ _ _ _ _ _ Hb).
  do 5 (erewrite bind_ok by reflexivity).
  cbn [total_usdc_received transaction_history monitoring_start_time
       initial_balance trace tick emit initial_world] in Ht, Hh, Hs, Hi, Htr.
  eexists _, balance, _. split; [reflexivity|].
  cbn [total_usdc_received transaction_history monitoring_start_time
       initial_balance trace tick emit advance set_initial_balance
       set_monitoring_start_time Nat.pred].
  repeat split; try assumption; try lia.
  rewrite Htr, !forallb_app, Hla. reflexivity.
Qed.

(** ** Events of the loop *)




(** ** The history only grows *)

(** X4. The loop only appends to the history: after [n] turns started in any
    state, the history is the former history followed by at most [n] new
    records; no record is changed or removed. *)
Theorem history_is_append_only (E : env) (w : world) (n : nat) :
  exists w' suffix,
    iterations get_usdc_balance print_statistics send_statistics_to_discord n
      E w = (w', Ok tt) /\
    transaction_history w' = (transaction_history w ++ suffix)%list /\
    (List.length suffix <= n)%nat.
Proof.
  destruct (iterations_induction E
              (fun k w' => exists suffix,
                 transaction_history w' = (transaction_history w ++ suffix)%list /\
                 (List.length suffix <= k)%nat))
    with (n := n) (k := O) (w := w) as (w' & Hrun & suffix & Hh & Hlen).
  - intros k wa wb (suffix & Hh & Hlen) Hrun.
    destruct (monitor_iteration_effects E wa)
      as (w1 & balance & wb' & _ & _ & _ & _ & Hrun' & (_ & Hh' & _) & _).
    rewrite Hrun in Hrun'. injection Hrun' as <-.
    rewrite Hh'. unfold on_balance.
    destruct (initial_balance wa <? balance)%float;
      [|destruct (balance <? initial_balance wa)%float];
      cbn [transaction_history set_initial_balance set_transaction_history
           set_total_usdc_received].
    + eexists (suffix ++ [_])%list. rewrite Hh, <- app_assoc.
      split; [reflexivity|]. rewrite length_app. cbn. lia.
    + exists suffix. split; [exact Hh|lia].
    + exists suffix. split; [exact Hh|lia].
  - exists []. rewrite app_nil_r. split; [reflexivity|cbn; lia].
  - exists w', suffix. auto.
Qed.

(** ** The order of the history *)

Lemma chronological_snoc history r :
  chronological history ->
  Forall (fun a => fst a <= fst r) history ->
  chronological (history ++ [r]).
Proof.
  unfold chronological. induction history as [|a h IH]; intros Hs Hall.
  - cbn. constructor; constructor.
  - cbn. apply StronglySorted_inv in Hs. destruct Hs as [Hs Ha].
    apply Forall_cons_iff in Hall. destruct Hall as [Har Hall].
    constructor; [apply IH; assumption|].
    apply Forall_app. split; [exact Ha|]. constructor; [exact Har|constructor].
Qed.

(** X5. When the clock never goes back, the history of the program is in
    chronological order after every number of turns: the timestamps of the
    records never decrease along the history. *)
Theorem history_is_chronological (E : env) (n : nat) :
  monotone_clock E ->
  exists w,
    monitor_usdc_transactions n E initial_world = (w, Ok tt) /\
    chronological (transaction_history w).
Proof.
  intros Hclock.
  destruct (monitor_start E n)
    as (w0 & balance & l0 & Hstart & _ & Hh0 & _ & _ & _ & _ & _).
  rewrite Hstart.
  destruct (iterations_induction E
              (fun _ w => chronological (transaction_history w) /\ stamped E w))
    with (n := n) (k := O) (w := w0) as (w & Hrun & Hc & _).
  - intros k wa wb [Hc Hst] Hrun.
    destruct (monitor_iteration_effects E wa)
      as (w1 & bal & wb' & _ & _ & _ & _ & Hrun' & (_ & Hh' & _) & Htick & _).
    rewrite Hrun in Hrun'. injection Hrun' as <-.
    assert (Hold : Forall (fun r => exists k, (k < tick wb)%nat /\ fst r = clock E k)
                     (transaction_history wa)).
    { eapply Forall_impl; [|exact Hst]. cbn beta.
      intros r (j & Hj & Hr). exists j. split; [lia|exact Hr]. }
    unfold stamped. rewrite Hh'. unfold on_balance.
    destruct (initial_balance wa <? bal)%float;
      [|destruct (bal <? initial_balance wa)%float];
      cbn [transaction_history set_initial_balance set_transaction_history
           set_total_usdc_received]; try (split; assumption).
    split.
    + apply chronological_snoc; [exact Hc|].
      eapply Forall_impl; [|exact Hst]. cbn beta.
      intros r (j & Hj & Hr). cbn [fst].
      replace (fst r) with (clock E j) by (symmetry; exact Hr).
      apply Hclock. lia.
    + apply Forall_app. split; [exact Hold|].
      constructor; [|constructor]. exists (tick wa). split; [exact Htick|reflexivity].
  - unfold stamped. rewrite Hh0. split; constructor.
  - exists w. auto.
Qed.

Lemma history_is_chronological_witness :
  exists w,
    monitor_usdc_transactions 2
      (poll_env (fun n => if (n <=? 10)%nat then 100%float else 150%float))
      initial_world = (w, Ok tt) /\
    chronological (transaction_history w).
Proof.
  apply history_is_chronological.
  intros m n H. cbn [clock poll_env]. lia.
Defined.

(** ** Turns that change nothing, and turns after a failed read *)







(** ** Floats that are numbers and not negative *)

Lemma shr_1_nonneg mrs : 0 <= shr_m mrs -> 0 <= shr_m (shr_1 mrs).
Proof.
  destruct mrs as [m r s]. cbn [shr_m]. intros H.
  destruct m as [|p|p]; [cbn; lia| |lia].
  destruct p; cbn; lia.
Qed.

Lemma iter_pos_shr_1_nonneg p : forall mrs,
  0 <= shr_m mrs -> 0 <= shr_m (iter_pos shr_1 p mrs).
Proof.
  induction p as [p IH|p IH|]; intros mrs H; cbn [iter_pos].
  - apply IH, IH, shr_1_nonneg, H.
  - apply IH, IH, H.
  - apply shr_1_nonneg, H.
Qed.

Lemma shr_fexp_nonneg m e l :
  0 <= m -> 0 <= shr_m (fst (shr_fexp prec emax m e l)).
Proof.
  intros H. unfold shr_fexp, shr.
  assert (H0 : 0 <= shr_m (shr_record_of_loc m l))
    by (destruct l as [|[]]; exact H).
  destruct (fexp prec emax (Zdigits2 m + e) - e); cbn [fst]; try exact H0.
  apply iter_pos_shr_1_nonneg, H0.
Qed.

Lemma round_nearest_even_nonneg m l : 0 <= m -> 0 <= round_nearest_even m l.
Proof.
  intros H. destruct l as [|[]]; cbn [round_nearest_even]; try lia.
  destruct (Z.even m); lia.
Qed.

Lemma binary_round_aux_not_negative m e l :
  0 <= m -> not_negative (binary_round_aux prec emax false m e l).
Proof.
  intros H. unfold binary_round_aux.
  pose proof (shr_fexp_nonneg m e l H) as H1.
  destruct (shr_fexp prec emax m e l) as [mrs' e']. cbn [fst] in H1.
  pose proof (shr_fexp_nonneg _ e' loc_Exact
                (round_nearest_even_nonneg _ (loc_of_shr_record mrs') H1)) as H2.
  destruct (shr_fexp prec emax _ e' loc_Exact) as [mrs'' e'']. cbn [fst] in H2.
  destruct (shr_m mrs''); [exact I| |lia].
  destruct (e'' <=? emax - prec); reflexivity.
Qed.

Lemma binary_normalize_not_negative m e :
  0 <= m -> not_negative (binary_normalize prec emax m e false).
Proof.
  intros H. destruct m as [|p|p]; [exact I| |lia].
  cbn [binary_normalize]. unfold binary_round.
  destruct (shl_align p e _) as [mz ez].
  apply binary_round_aux_not_negative. lia.
Qed.

Lemma SFadd_not_negative x y :
  not_negative x -> not_negative y -> not_negative (SFadd prec emax x y).
Proof.
  destruct x as [sx|sx| |sx mx ex], y as [sy|sy| |sy my ey];
    cbn [not_negative SFadd]; intros Hx Hy; subst; try contradiction;
    try exact I; try reflexivity.
  - destruct sx, sy; exact I.
  - apply binary_normalize_not_negative. cbn [cond_Zopp]. lia.
Qed.

Lemma Pos_iter_xO m d : Zpos (Pos.iter xO m d) = Zpos m * 2 ^ Zpos d.
Proof.
  induction d as [|d IH] using Pos.peano_ind.
  - cbn. lia.
  - rewrite Pos.iter_succ, Pos2Z.inj_succ, Z.pow_succ_r by lia.
    rewrite Pos2Z.inj_xO, IH. lia.
Qed.

Lemma shl_align_value m e ez :
  ez <= e -> Zpos (fst (shl_align m e ez)) = Zpos m * 2 ^ (e - ez).
Proof.
  intros H. unfold shl_align.
  destruct (ez - e) as [|d|d] eqn:Hd; cbn [fst].
  - replace (e - ez) with 0 by lia. lia.
  - lia.
  - rewrite Pos_iter_xO. replace (e - ez) with (Zpos d) by lia. reflexivity.
Qed.

Lemma digits2_pos_lower m : 2 ^ (Zpos (digits2_pos m) - 1) <= Zpos m.
Proof.
  induction m as [m IH|m IH|]; cbn [digits2_pos]; [| |cbn; lia].
  all: rewrite Pos2Z.inj_succ;
    replace (Z.succ (Zpos (digits2_pos m)) - 1)
      with (Z.succ (Zpos (digits2_pos m) - 1)) by lia;
    rewrite Z.pow_succ_r by lia; lia.
Qed.

(** The mantissa and the exponent of a valid binary64 float. *)
Lemma valid_finite s m e :
  valid_binary (S754_finite s m e) = true ->
  -1074 <= e /\ Zpos m < 2 ^ 53 /\ (-1074 < e -> 2 ^ 52 <= Zpos m).
Proof.
  intros H. pose proof (valid_mantissa_bound s m e H) as Hm.
  unfold SpecFloat.valid_binary, bounded, canonical_mantissa, fexp,
    SpecFloat.emin in H.
  apply andb_prop in H. destruct H as [H _]. apply Z.eqb_eq in H.
  unfold prec, emax in H.
  split; [lia|]. split; [exact Hm|]. intros He.
  assert (Hd : Zpos (digits2_pos m) = 53) by lia.
  pose proof (digits2_pos_lower m) as Hl. rewrite Hd in Hl. exact Hl.
Qed.

Lemma pow2_ge_2 k : 1 <= k -> 2 <= 2 ^ k.
Proof.
  intros H. pose proof (Z.pow_le_mono_r 2 1 k ltac:(lia) H) as Hp.
  change (2 ^ 1) with 2 in Hp. exact Hp.
Qed.

(** The aligned mantissas of two valid floats of the same sign compare as
    the floats do. *)
Lemma aligned_mantissas_lt my ey mx ex sy sx :
  valid_binary (S754_finite sy my ey) = true ->
  valid_binary (S754_finite sx mx ex) = true ->
  match Z.compare ey ex with
  | Lt => Lt
  | Gt => Gt
  | Eq => Pos.compare_cont Eq my mx
  end = Lt ->
  Zpos (fst (shl_align my ey (Z.min ex ey))) <
  Zpos (fst (shl_align mx ex (Z.min ex ey))).
Proof.
  intros Hy Hx Hc.
  destruct (valid_finite _ _ _ Hy) as (Hey & Hmy & _).
  destruct (valid_finite _ _ _ Hx) as (Hex & _ & Hmx).
  rewrite !shl_align_value by lia.
  change (2 ^ 53) with 9007199254740992 in *.
  change (2 ^ 52) with 4503599627370496 in *.
  destruct (Z.compare_spec ey ex) as [He|He|He]; try discriminate.
  - subst ey. rewrite Z.min_id, Z.sub_diag, Z.pow_0_r.
    change (Pos.compare_cont Eq my mx) with (Pos.compare my mx) in Hc.
    apply Pos.compare_lt_iff, Pos2Z.pos_lt_pos in Hc. lia.
  - rewrite Z.min_r by lia. rewrite Z.sub_diag, Z.pow_0_r.
    specialize (Hmx ltac:(lia)).
    pose proof (pow2_ge_2 (ex - ey) ltac:(lia)). nia.
Qed.

Lemma SFsub_finite_not_negative sx mx ex sy my ey :
  valid_binary (S754_finite sx mx ex) = true ->
  valid_binary (S754_finite sy my ey) = true ->
  SFcompare (S754_finite sy my ey) (S754_finite sx mx ex) = Some Lt ->
  not_negative
    (SFsub prec emax (S754_finite sx mx ex) (S754_finite sy my ey)).
Proof.
  intros Hx Hy Hc. cbn [SFsub]. apply binary_normalize_not_negative.
  cbn [SFcompare] in Hc. injection Hc as Hc.
  destruct sy, sx; try discriminate; cbn [cond_Zopp].
  - rewrite (Z.compare_antisym ex ey) in Hc.
    change (Pos.compare_cont Eq my mx) with (Pos.compare my mx) in Hc.
    rewrite (Pos.compare_antisym mx my) in Hc.
    assert (Hc' : match Z.compare ex ey with
                  | Lt => Lt
                  | Gt => Gt
                  | Eq => Pos.compare_cont Eq mx my
                  end = Lt).
    { change (Pos.compare_cont Eq mx my) with (Pos.compare mx my).
      destruct (ex ?= ey), (mx ?= my)%positive; cbn in Hc;
        (discriminate || reflexivity). }
    pose proof (aligned_mantissas_lt mx ex my ey _ _ Hx Hy Hc') as H.
    rewrite (Z.min_comm ey ex) in H. lia.
  - pose proof (aligned_mantissas_lt my ey mx ex _ _ Hy Hx Hc) as H. lia.
Qed.

Lemma SFsub_not_negative x y :
  valid_binary x = true -> valid_binary y = true ->
  SFltb y x = true -> not_negative (SFsub prec emax x y).
Proof.
  intros Hx Hy Hlt.
  assert (Hc : SFcompare y x = Some Lt).
  { unfold SFltb in Hlt. destruct (SFcompare y x) as [[| |]|];
      (discriminate || reflexivity). }
  destruct x as [sx|sx| |sx mx ex], y as [sy|sy| |sy my ey];
    try exact (SFsub_finite_not_negative _ _ _ _ _ _ Hx Hy Hc);
    cbn [SFcompare] in Hc; cbn [SFsub not_negative];
    try discriminate;
    repeat match goal with s : bool |- _ => destruct s end;
    first [discriminate | reflexivity | exact I].
Qed.

Lemma not_negative_leb x :
  not_negative x <-> SFleb (S754_zero false) x = true.
Proof.
  destruct x as [s|s| |s m e]; cbn; split; intros H;
    try exact I; try reflexivity; try discriminate; try contradiction;
    try (subst; reflexivity); destruct s; (reflexivity || discriminate).
Qed.

Lemma float_not_negative (x : float) :
  (0 <=? x)%float = true <-> not_negative (Prim2SF x).
Proof. rewrite leb_spec. symmetry. apply not_negative_leb. Qed.

Lemma float_add_not_negative (a b : float) :
  (0 <=? a)%float = true -> (0 <=? b)%float = true ->
  (0 <=? a + b)%float = true.
Proof.
  rewrite !float_not_negative, add_spec. apply SFadd_not_negative.
Qed.

Lemma float_sub_not_negative (a b : float) :
  (b <? a)%float = true -> (0 <=? a - b)%float = true.
Proof.
  rewrite float_not_negative, sub_spec, ltb_spec.
  apply SFsub_not_negative; apply Prim2SF_valid.
Qed.

Lemma float_eqb_refl (x : float) :
  (0 <=? x)%float = true -> (x =? x)%float = true.
Proof.
  rewrite float_not_negative, eqb_spec. unfold SFeqb.
  destruct (Prim2SF x) as [s|s| |s m e]; cbn [not_negative SFcompare];
    try reflexivity; try contradiction.
  - destruct s; reflexivity.
  - intros ->. rewrite Z.compare_refl.
    change (Pos.compare_cont Eq m m) with (Pos.compare m m).
    rewrite Pos.compare_refl. reflexivity.
Qed.

(** ** The amounts of the history *)

Lemma on_balance_amounts now balance w :
  (0 <=? total_usdc_received w)%float = true /\
  Forall (fun r => (0 <=? snd r)%float = true) (transaction_history w) ->
  (0 <=? total_usdc_received (on_balance now balance w))%float = true /\
  Forall (fun r => (0 <=? snd r)%float = true)
    (transaction_history (on_balance now balance w)).
Proof.
  intros [Ht Hh]. unfold on_balance.
  destruct (initial_balance w <? balance)%float eqn:Hup;
    [|destruct (balance <? initial_balance w)%float];
    cbn [total_usdc_received transaction_history set_initial_balance
         set_transaction_history set_total_usdc_received]; try (split; assumption).
  pose proof (float_sub_not_negative _ _ Hup) as Hr.
  split.
  - apply float_add_not_negative; assumption.
  - apply Forall_app. split; [exact Hh|]. constructor; [exact Hr|constructor].
Qed.

(** X8. After every number of turns of the program, every amount of the
    history is a number that is not negative, so is the running total, and
    the running total equals the sum of the amounts also in the sense of the
    comparison of floats ([==]): neither side is NaN. *)
Theorem recorded_amounts_are_not_negative (E : env) (n : nat) :
  exists w,
    monitor_usdc_transactions n E initial_world = (w, Ok tt) /\
    Forall (fun r => (0 <=? snd r)%float = true) (transaction_history w) /\
    (0 <=? total_usdc_received w)%float = true /\
    (total_usdc_received w =? Py.sum (map snd (transaction_history w)))%float
      = true.
Proof.
  destruct (monitor_start E n)
    as (w0 & balance & l0 & Hstart & Ht0 & Hh0 & _).
  rewrite Hstart.
  destruct (iterations_induction E
              (fun _ w =>
                 ((0 <=? total_usdc_received w)%float = true /\
                  Forall (fun r => (0 <=? snd r)%float = true)
                    (transaction_history w)) /\
                 total_matches_history w))
    with (n := n) (k := O) (w := w0) as (w & Hrun & (Ht & Hh) & Hsum).
  - intros k wa wb [Hpos Hsum] Hrun.
    destruct (monitor_iteration_effects E wa)
      as (w1 & bal & wb' & _ & _ & _ & _ & Hrun' & Hs & _).
    rewrite Hrun in Hrun'. injection Hrun' as <-.
    pose proof (on_balance_amounts (clock E (tick wa)) bal wa Hpos) as Hpos'.
    pose proof (on_balance_total (clock E (tick wa)) bal wa Hsum) as Hsum'.
    split; [|exact (same_store_total _ _ Hs Hsum')].
    destruct Hs as (Ht & Hh & _). rewrite Ht, Hh. exact Hpos'.
  - unfold total_matches_history. rewrite Ht0, Hh0.
    repeat split; constructor.
  - exists w. split; [exact Hrun|]. split; [exact Hh|]. split; [exact Ht|].
    unfold total_matches_history in Hsum. rewrite <- Hsum.
    apply float_eqb_refl, Ht.
Qed.

(** ** The fallback of the balance reader *)

Lemma int_to_bytes_little_length k : forall n,
  List.length (int_to_bytes_little k n) = k.
Proof. induction k as [|k IH]; intros n; cbn; [reflexivity|now rewrite IH]. Qed.

Lemma byte_of_small x :
  0 <= x < 256 ->
  exists b, Byte.of_N (Z.to_N x) = Some b /\ Z.of_N (Byte.to_N b) = x.
Proof.
  intros H. pose proof (Byte.to_of_N_option_map (Z.to_N x)) as Hm.
  destruct (N.leb_spec (Z.to_N x) 255) as [_|Hgt]; [|lia].
  destruct (Byte.of_N (Z.to_N x)) as [b|]; [|discriminate].
  exists b. split; [reflexivity|]. cbn in Hm. injection Hm as Hm. lia.
Qed.

Lemma int_from_to_bytes_little k : forall n,
  0 <= n < 256 ^ Z.of_nat k ->
  Py.int_from_bytes_little (int_to_bytes_little k n) = n.
Proof.
  induction k as [|k IH]; intros n Hn.
  - cbn in *. lia.
  - rewrite Nat2Z.inj_succ, Z.pow_succ_r in Hn by lia.
    cbn [int_to_bytes_little Py.int_from_bytes_little fold_right].
    fold (Py.int_from_bytes_little (int_to_bytes_little k (n / 256))).
    destruct (byte_of_small (n mod 256)) as (b & Hb & Hv);
      [apply Z.mod_pos_bound; lia|].
    rewrite Hb, Hv, IH.
    + pose proof (Z.div_mod n 256 ltac:(lia)). lia.
    + split; [apply Z.div_pos; lia|apply Z.div_lt_upper_bound; lia].
Qed.

Lemma skipn_prefix {A} (l1 l2 : list A) : skipn (List.length l1) (l1 ++ l2) = l2.
Proof. induction l1; cbn; auto. Qed.

Lemma firstn_prefix {A} (l1 l2 : list A) : firstn (List.length l1) (l1 ++ l2) = l1.
Proof. induction l1; cbn; congruence. Qed.

Lemma balance_from_raw_data prefix rest raw :
  List.length prefix = 64%nat ->
  0 <= raw < 2 ^ 64 ->
  balance_from_account_data
    (Some {| acc_data := (prefix ++ int_to_bytes_little 8 raw ++ rest)%list |})
  = Some (Py.int_true_div raw 1000000).
Proof.
  intros Hp Hraw. unfold balance_from_account_data. cbn [acc_data].
  assert (Hlen : (72 <= List.length (prefix ++ int_to_bytes_little 8 raw ++ rest))%nat).
  { rewrite !length_app, int_to_bytes_little_length. lia. }
  destruct (prefix ++ int_to_bytes_little 8 raw ++ rest)%list as [|x data] eqn:Hd;
    [cbn in Hlen; lia|].
  apply Nat.leb_le in Hlen. rewrite Hlen. rewrite <- Hd.
  pose proof (skipn_prefix prefix (int_to_bytes_little 8 raw ++ rest)) as Hs.
  rewrite Hp in Hs.
  pose proof (firstn_prefix (int_to_bytes_little 8 raw) rest) as Hf.
  rewrite int_to_bytes_little_length in Hf.
  unfold Py.slice. change (72 - 64)%nat with 8%nat. rewrite Hs, Hf.
  rewrite int_from_to_bytes_little; [reflexivity|exact Hraw].
Qed.

(** X9. The fallback decodes the amount stored at offset 64 of the account
    data.  When the token account is found, the balance query raises and the
    account data consists of 64 bytes, the 8 bytes of [raw] in little-endian
    order ([0 <= raw < 2^64]) and any further bytes, [get_usdc_balance]
    returns [raw / 1_000_000] and logs nothing. *)
Theorem fallback_reads_raw_amount
    (E : env) (w : world) (address : string) (owner mint : pubkey)
    (acct : keyed_account) (others : list keyed_account)
    (prefix rest : list Byte.byte) (raw : Z) (e : exn) :
  provider_ready E (tick w) address owner mint ->
  token_accounts_by_owner E (S (tick w)) owner mint = Returns (acct :: others) ->
  account_info E (S (S (tick w))) (ka_pubkey acct) =
    Returns (Some {| acc_data :=
                       (prefix ++ int_to_bytes_little 8 raw ++ rest)%list |}) ->
  token_account_balance E (S (S (S (tick w)))) (ka_pubkey acct) = Raises e ->
  List.length prefix = 64%nat ->
  0 <= raw < 2 ^ 64 ->
  exists w',
    get_usdc_balance address E w = (w', Ok (Py.int_true_div raw 1000000)) /\
    trace w' = trace w.
Proof.
  intros ((u & Hc) & Ho & Hm) Hta Hai Hb Hp Hraw.
  rewrite get_usdc_balance_run, balance_query_run, Hc, Ho, Hm, Hta, Hai, Hb.
  rewrite (balance_from_raw_data prefix rest raw Hp Hraw).
  eexists. split; reflexivity.
Qed.

Lemma fallback_reads_raw_amount_witness :
  exists w',
    get_usdc_balance MONITORED_ADDRESS (raw_data_env 150250000) initial_world
      = (w', Ok 150.25%float) /\
    trace w' = [].
Proof.
  apply (fallback_reads_raw_amount (raw_data_env 150250000) initial_world
           MONITORED_ADDRESS MONITORED_ADDRESS USDC_MINT_ADDRESS
           {| ka_pubkey := "token-account" |} []
           (List.repeat Byte.x00 64) (List.repeat Byte.x00 93) 150250000
           (Exception "bad response")).
  - split; [exists tt; reflexivity|split; reflexivity].
  - reflexivity.
  - reflexivity.
  - reflexivity.
  - reflexivity.
  - lia.
Defined.

(** ** Windows without records *)

(** X10. When the history is empty, or every record is strictly older than
    the window, [get_received_in_period] returns zero (the sum of no item,
    the integer 0 in Python, is the zero of the model) and prints nothing;
    and it reads the clock only when the history is not empty. *)
Theorem empty_window_gives_zero (E : env) (w : world) (seconds : Z) :
  (forall r, In r (transaction_history w) ->
             fst r < clock E (tick w) - seconds * 1000000) ->
  exists w',
    get_received_in_period seconds E w = (w', Ok 0%float) /\
    trace w' = trace w /\
    (transaction_history w = [] -> tick w' = tick w) /\
    (transaction_history w <> [] -> tick w' = S (tick w)).
Proof.
  intros Hold.
  assert (Hempty : window_records (clock E (tick w)) seconds
                     (transaction_history w) = []).
  { unfold window_records. induction (transaction_history w) as [|r h IH];
      [reflexivity|].
    cbn [filter]. pose proof (Hold r (or_introl eq_refl)) as Hr.
    match goal with
    | |- context [if ?c then _ else _] => destruct c eqn:Hle
    end; [apply Z.leb_le in Hle; unfold datetime in *; lia|].
    apply IH. intros r' Hr'. apply Hold. now right. }
  unfold get_received_in_period. rewrite bind_gets.
  destruct (transaction_history w) as [|r h] eqn:Hh.
  - exists w. repeat split; congruence.
  - rewrite bind_datetime_now. unfold ret.
    rewrite amounts_since_window, Hempty.
    exists (advance w). repeat split; congruence.
Qed.

Lemma empty_window_gives_zero_witness :
  exists w',
    get_received_in_period 300 (poll_env (fun _ => 0%float)) initial_world
      = (w', Ok 0%float) /\
    trace w' = [] /\
    (transaction_history initial_world = [] -> tick w' = O) /\
    (transaction_history initial_world <> [] -> tick w' = 1%nat).
Proof.
  apply (empty_window_gives_zero (poll_env (fun _ => 0%float)) initial_world 300).
  intros r H. destruct H.
Defined.

(** ** The grouping only inserts spaces *)

Lemma list_ascii_of_string_app s t :
  list_ascii_of_string (s ++ t) =
  (list_ascii_of_string s ++ list_ascii_of_string t)%list.
Proof. induction s; cbn; congruence. Qed.

Lemma spaceless_app s t : spaceless s -> spaceless t -> spaceless (s ++ t).
Proof.
  unfold spaceless. intros Hs Ht.
  now rewrite list_ascii_of_string_app, forallb_app, Hs, Ht.
Qed.

Lemma remove_spaces_app s t :
  remove_spaces (s ++ t) = remove_spaces s ++ remove_spaces t.
Proof.
  unfold remove_spaces.
  now rewrite list_ascii_of_string_app, filter_app, string_of_list_ascii_app.
Qed.

Lemma remove_spaces_spaceless s : spaceless s -> remove_spaces s = s.
Proof.
  unfold spaceless, remove_spaces. intros H.
  rewrite (forallb_filter_id _ _ H). apply string_of_list_ascii_of_string.
Qed.

Lemma filter_thousands_rev n : forall l,
  (List.length l <= n)%nat ->
  forallb not_space l = true ->
  filter not_space (thousands_rev l) = l.
Proof.
  induction n as [|n IH]; intros l Hl H.
  - destruct l; [reflexivity|cbn in Hl; lia].
  - destruct l as [|a [|b [|c rest]]]; cbn [thousands_rev].
    + reflexivity.
    + apply forallb_filter_id, H.
    + apply forallb_filter_id, H.
    + cbn [forallb] in H. apply andb_prop in H. destruct H as [Ha H].
      apply andb_prop in H. destruct H as [Hb H].
      apply andb_prop in H. destruct H as [Hc H].
      cbn [filter]. rewrite Ha, Hb, Hc.
      destruct rest as [|d rest]; [reflexivity|].
      cbn [filter]. change (not_space " ") with false. cbn iota.
      rewrite IH; [reflexivity|cbn in Hl |- *; lia|exact H].
Qed.

Lemma remove_spaces_thousands s : spaceless s -> remove_spaces (thousands s) = s.
Proof.
  unfold spaceless, remove_spaces, thousands. intros H.
  rewrite list_ascii_of_string_of_list_ascii, filter_rev.
  rewrite (filter_thousands_rev _ _ (Nat.le_refl _))
    by (rewrite forallb_forall in *; intros c Hc; apply H, in_rev, Hc).
  rewrite rev_involutive. apply string_of_list_ascii_of_string.
Qed.

Lemma digit_char_not_space d : 0 <= d < 10 -> not_space (Py.digit_char d) = true.
Proof.
  intros H. unfold Py.digit_char.
  assert (Hn : (Z.to_nat d < 10)%nat) by lia.
  revert Hn. generalize (Z.to_nat d). intros n Hn.
  do 10 (destruct n as [|n]; [reflexivity|]). lia.
Qed.

Lemma fixed_digits_spaceless k : forall z, spaceless (Py.fixed_digits k z).
Proof.
  induction k as [|k IH]; intros z; cbn [Py.fixed_digits]; [reflexivity|].
  apply spaceless_app; [apply IH|]. unfold spaceless.
  cbn [list_ascii_of_string forallb].
  rewrite digit_char_not_space; [reflexivity|apply Z.mod_pos_bound; lia].
Qed.

Lemma string_of_uint_spaceless d : spaceless (NilEmpty.string_of_uint d).
Proof.
  unfold spaceless. induction d; cbn [NilEmpty.string_of_uint
    list_ascii_of_string forallb]; try reflexivity; rewrite IHd; reflexivity.
Qed.

Lemma str_of_Z_spaceless n : spaceless (Py.str_of_Z n).
Proof.
  unfold Py.str_of_Z, NilZero.string_of_uint.
  generalize (string_of_uint_spaceless (N.to_uint (Z.to_N n))).
  destruct (N.to_uint (Z.to_N n)); intros H; exact H.
Qed.

Lemma spaceless_rstrip c s : spaceless s -> spaceless (Py.rstrip c s).
Proof.
  unfold spaceless.
  induction s as [|a s IH]; cbn [Py.rstrip list_ascii_of_string forallb];
    [reflexivity|].
  intros H. apply andb_prop in H. destruct H as [Ha Hs]. specialize (IH Hs).
  destruct (Py.rstrip c s) as [|x r].
  - destruct (Ascii.eqb a c); cbn; [reflexivity|now rewrite Ha].
  - cbn [list_ascii_of_string forallb] in *. now rewrite Ha, IH.
Qed.

(** The result of [format_number] on a float that is not zero: the grouped
    integer part followed by what is left after it. *)
Lemma format_number_shape (value : float) :
  (value =? 0)%float = false ->
  exists integer_part rest,
    spaceless integer_part /\ spaceless rest /\
    Py.rstrip "." (Py.rstrip "0" (Py.format_10f value)) = integer_part ++ rest /\
    format_number value = thousands integer_part ++ rest.
Proof.
  intros H0. unfold format_number. rewrite H0. unfold Py.format_10f.
  pose proof H0 as Hz. rewrite eqb_spec in Hz.
  change (Prim2SF 0) with (S754_zero false) in Hz.
  destruct (Prim2SF value) as [s|s| |s m e].
  - destruct s; discriminate.
  - destruct s; [exists "-inf", ""|exists "inf", ""]; repeat split.
  - exists "nan", "". repeat split.
  - cbv zeta.
    set (P := Py.fixed_digits 10 _).
    set (A := Py.sign_str s ++ Py.str_of_Z (Py.scaled10 m e / 10 ^ 10)).
    assert (HA : nochar "." A).
    { apply nochar_app; [destruct s; cbn; auto; split; [discriminate|exact I]|].
      apply str_of_Z_nodot. }
    assert (HAs : spaceless A).
    { apply spaceless_app; [destruct s; reflexivity|apply str_of_Z_spaceless]. }
    assert (HP : nochar "." (Py.rstrip "0" P))
      by apply nochar_rstrip, fixed_digits_nodot.
    assert (HPs : spaceless (Py.rstrip "0" P))
      by apply spaceless_rstrip, fixed_digits_spaceless.
    replace (Py.sign_str s ++ Py.str_of_Z (Py.scaled10 m e / 10 ^ 10) ++ "." ++ P)
      with (A ++ String "." P)
      by (unfold A; rewrite append_assoc; reflexivity).
    rewrite rstrip_app, rstrip_cons_neq by discriminate.
    rewrite rstrip_app. cbn [Py.rstrip]. rewrite (rstrip_nochar _ _ HP).
    destruct (Py.rstrip "0" P) as [|x r] eqn:EP.
    + exists A, "". cbn [Ascii.eqb Bool.eqb].
      rewrite (rstrip_nochar _ _ HA), (split_nochar _ _ HA). cbn [nth].
      rewrite !append_nil_r.
      split; [exact HAs|]. split; [reflexivity|]. split; [reflexivity|].
      apply group_loop_thousands.
    + exists A, (String "." (String x r)).
      rewrite (split_app _ _ _ HA), (split_nochar _ _ HP). cbn [nth].
      split; [exact HAs|]. split; [exact HPs|]. split; [reflexivity|].
      rewrite group_loop_thousands. reflexivity.
Qed.

(** X11. For every float that is not zero, negative, infinite or NaN
    included, [format_number] only inserts spaces: deleting the spaces of its
    result gives the fixed rendering with ten fractional digits, stripped of
    its trailing zeros and of a trailing decimal point. *)
Theorem format_number_only_inserts_spaces (value : float) :
  (value =? 0)%float = false ->
  remove_spaces (format_number value) =
  Py.rstrip "." (Py.rstrip "0" (Py.format_10f value)).
Proof.
  intros H0.
  destruct (format_number_shape value H0) as (a & rest & Ha & Hr & Hs & Hf).
  rewrite Hf, Hs, remove_spaces_app, (remove_spaces_thousands a Ha),
    (remove_spaces_spaceless rest Hr).
  reflexivity.
Qed.

Lemma format_number_only_inserts_spaces_witness :
  format_number (-1234567.5) = "-1 234 567.5" /\
  remove_spaces (format_number (-1234567.5)) = "-1234567.5".
Proof.
  split; [vm_compute; reflexivity|].
  rewrite (format_number_only_inserts_spaces (-1234567.5)%float eq_refl).
  vm_compute. reflexivity.
Defined.

(** ** The start of the program and the primary balance query *)


Lemma get_usdc_balance_primary E w address owner mint acct others info amount :
  provider_ready E (tick w) address owner mint ->
  token_accounts_by_owner E (S (tick w)) owner mint = Returns (acct :: others) ->
  account_info E (S (S (tick w))) (ka_pubkey acct) = Returns info ->
  token_account_balance E (S (S (S (tick w)))) (ka_pubkey acct)
    = Returns (Some amount) ->
  get_usdc_balance address E w =
    (advance (advance (advance (advance w))), Ok (Py.or_zero (ui_amount amount))).
Proof.
  intros ((u & Hc) & Ho & Hm) Hta Hai Hb.
  rewrite get_usdc_balance_run, balance_query_run, Hc, Ho, Hm, Hta, Hai, Hb.
  reflexivity.
Qed.

(** X13. When the first token account is found and read and the balance
    query answers, [get_usdc_balance] returns the [ui_amount] of the answer,
    and [0.0] when the answer has no [ui_amount] or a zero one (also a
    negative zero); it logs nothing, and neither the other token accounts nor
    the raw account data matter. *)
Theorem primary_answer_is_returned
    (E : env) (w : world) (address : string) (owner mint : pubkey)
    (acct : keyed_account) (others : list keyed_account)
    (info : option account) (amount : ui_token_amount) :
  provider_ready E (tick w) address owner mint ->
  token_accounts_by_owner E (S (tick w)) owner mint = Returns (acct :: others) ->
  account_info E (S (S (tick w))) (ka_pubkey acct) = Returns info ->
  token_account_balance E (S (S (S (tick w)))) (ka_pubkey acct)
    = Returns (Some amount) ->
  exists w' balance,
    get_usdc_balance address E w = (w', Ok balance) /\
    trace w' = trace w /\
    (forall x, ui_amount amount = Some x -> (x =? 0)%float = false -> balance = x) /\
    (forall x, ui_amount amount = Some x -> (x =? 0)%float = true ->
               balance = 0%float) /\
    (ui_amount amount = None -> balance = 0%float).
Proof.
  intros Hready Hta Hai Hb.
  rewrite (get_usdc_balance_primary E w address owner mint acct others info
             amount Hready Hta Hai Hb).
  eexists _, _. split; [reflexivity|]. split; [reflexivity|].
  unfold Py.or_zero.
  split; [|split].
  - intros x Hx H0. rewrite Hx, H0. reflexivity.
  - intros x Hx H0. rewrite Hx, H0. reflexivity.
  - intros Hx. rewrite Hx. reflexivity.
Qed.

Lemma primary_answer_is_returned_witness :
  exists w',
    get_usdc_balance MONITORED_ADDRESS (poll_env (fun _ => (-0)%float))
      initial_world = (w', Ok 0%float) /\
    trace w' = [].
Proof.
  destruct (primary_answer_is_returned (poll_env (fun _ => (-0)%float))
              initial_world MONITORED_ADDRESS MONITORED_ADDRESS USDC_MINT_ADDRESS
              {| ka_pubkey := "token-account" |} [] None
              {| ui_amount := Some (-0)%float |})
    as (w' & balance & Hrun & Htr & _ & Hzero & _).
  - split; [exists tt; reflexivity|split; reflexivity].
  - reflexivity.
  - reflexivity.
  - reflexivity.
  - exists w'. rewrite (Hzero (-0)%float eq_refl eq_refl) in Hrun.
    split; [exact Hrun|exact Htr].
Defined.
